(** * CardGuard front end: the built-in CSV parser and its caller

    A shallow embedding of [parseCSVBuiltIn] and of the built-in branch of
    [BatchPage.handleFile], together with the ECMAScript string and number
    primitives they call ([String.prototype.trim], [split], [slice],
    [startsWith], [endsWith], [includes], [replace], [isNaN], [Number],
    [Array.prototype.join]).

    An ECMAScript string is a sequence of UTF-16 code units; it is modelled
    as a list of code-unit values.  An ECMAScript Number is an IEEE 754
    binary64 value; it is modelled by [spec_float] at precision 53. *)

From Stdlib Require Import ZArith NArith List Ascii String SpecFloat Lia.
From Stdlib Require Import DecimalString.
From stdpp Require Import gmap list.

Local Open Scope N_scope.

(** ** Strings *)

Abbreviation jsstring := (list N) (only parsing).

(** The code units of an ASCII literal. *)
Definition js (s : string) : jsstring :=
  map N_of_ascii (list_ascii_of_string s).

Definition QUOTE : N := 34.
Definition COMMA : N := 44.
Definition LF : N := 10.
Definition CR : N := 13.

(** WhiteSpace and LineTerminator code points, the set removed by [trim]
    and skipped by the string-to-number conversion. *)
Definition isWhiteSpace (c : N) : bool :=
  (c =? 9) || (c =? 10) || (c =? 11) || (c =? 12) || (c =? 13) ||
  (c =? 32) || (c =? 160) || (c =? 5760) ||
  ((8192 <=? c) && (c <=? 8202)) ||
  (c =? 8232) || (c =? 8233) || (c =? 8239) || (c =? 8287) ||
  (c =? 12288) || (c =? 65279).

Fixpoint trimStart (s : jsstring) : jsstring :=
  match s with
  | [] => []
  | c :: t => if isWhiteSpace c then trimStart t else s
  end.

Definition trimEnd (s : jsstring) : jsstring := rev (trimStart (rev s)).

Definition trim (s : jsstring) : jsstring := trimEnd (trimStart s).

(** Prepends a code unit to the first piece of a split. *)
Definition cons_head (c : N) (ls : list jsstring) : list jsstring :=
  match ls with
  | [] => [[c]]
  | l :: ls' => (c :: l) :: ls'
  end.

(** [s.split(sep)] for a separator of one code unit. *)
Fixpoint split (sep : N) (s : jsstring) : list jsstring :=
  match s with
  | [] => [[]]
  | c :: t => if c =? sep then [] :: split sep t else cons_head c (split sep t)
  end.

(** [s.split(/\r?\n/)]: a line feed, or a carriage return directly followed
    by a line feed, separates; a lone carriage return stays in its line. *)
Fixpoint split_lines (s : jsstring) : list jsstring :=
  match s with
  | [] => [[]]
  | c :: t =>
      if c =? LF then [] :: split_lines t
      else
        match t with
        | d :: t' =>
            if (c =? CR) && (d =? LF) then [] :: split_lines t'
            else cons_head c (split_lines t)
        | [] => cons_head c (split_lines t)
        end
  end.

Definition str_eqb (a b : jsstring) : bool := bool_decide (a = b).

Fixpoint startsWith (s p : jsstring) {struct p} : bool :=
  match p with
  | [] => true
  | x :: p' =>
      match s with
      | [] => false
      | c :: s' => (c =? x) && startsWith s' p'
      end
  end.

Definition endsWith (s p : jsstring) : bool := startsWith (rev s) (rev p).

(** [s.includes(p)]: [p] occurs at some position of [s]. *)
Fixpoint includes (s p : jsstring) : bool :=
  startsWith s p ||
  match s with
  | [] => false
  | _ :: t => includes t p
  end.

(** Relative index of [slice]: negative counts from the end, then clamped. *)
Definition clamp_index (len i : Z) : Z :=
  if (i <? 0)%Z then Z.max (len + i) 0 else Z.min i len.

Definition slice {A} (l : list A) (start stop : Z) : list A :=
  let len := Z.of_nat (length l) in
  let from := clamp_index len start in
  let to := clamp_index len stop in
  take (Z.to_nat (to - from)) (drop (Z.to_nat from) l).

(** [s.replace(/^"|"$/g, "")]: the global replace deletes a quote matched at
    the start of the string and then a quote matched at the end of what
    follows; each alternative matches on its own. *)
Definition dropEndQuote (s : jsstring) : jsstring :=
  match rev s with
  | c :: r => if c =? QUOTE then rev r else s
  | [] => s
  end.

Definition replaceOuterQuotes (s : jsstring) : jsstring :=
  match s with
  | c :: t => if c =? QUOTE then dropEndQuote t else dropEndQuote s
  | [] => []
  end.

(** [a.join(sep)]. *)
Fixpoint join (sep : jsstring) (a : list jsstring) : jsstring :=
  match a with
  | [] => []
  | [x] => x
  | x :: rest => x ++ sep ++ join sep rest
  end.

(** [a.includes(x)] on an array of strings. *)
Definition arr_includes (a : list jsstring) (x : jsstring) : bool :=
  existsb (str_eqb x) a.

(** ** Numbers *)

Definition prec : Z := 53.
Definition emax : Z := 1024.

Abbreviation number := spec_float (only parsing).

Definition is_nan (x : number) : bool :=
  match x with S754_nan => true | _ => false end.

Definition is_finite (x : number) : bool :=
  match x with S754_zero _ | S754_finite _ _ _ => true | _ => false end.

(** The Number value of an integer. *)
Definition number_of_Z (z : Z) : number := binary_normalize prec emax z 0 false.

(** The Number value of [(-1)^neg * d * 10^e]: the exact decimal value
    rounded to nearest, ties to even, whatever the number of digits (the
    engines round exactly; the language standard also allows an
    approximation past the twentieth significant digit). *)
Definition number_of_decimal (neg : bool) (d : N) (e : Z) : number :=
  match d with
  | N0 => S754_zero neg
  | Npos p =>
      if (0 <=? e)%Z then
        binary_normalize prec emax (cond_Zopp neg (Zpos p * 10 ^ e)) 0 neg
      else
        SFdiv prec emax (S754_finite neg p 0)
          (S754_finite false (Z.to_pos (10 ^ (- e))) 0)
  end.

(** Value of a digit in the given radix. *)
Definition digitValue (radix c : N) : option N :=
  let v :=
    if (48 <=? c) && (c <=? 57) then Some (c - 48)
    else if (97 <=? c) && (c <=? 122) then Some (c - 87)
    else if (65 <=? c) && (c <=? 90) then Some (c - 55)
    else None in
  match v with
  | Some d => if d <? radix then Some d else None
  | None => None
  end.

(** Reads the longest run of digits: accumulated value, number of digits
    read, and the rest of the string. *)
Fixpoint readDigits (radix : N) (s : jsstring) (acc : N) (n : nat)
  : N * nat * jsstring :=
  match s with
  | [] => (acc, n, [])
  | c :: t =>
      match digitValue radix c with
      | Some d => readDigits radix t (acc * radix + d) (S n)
      | None => (acc, n, s)
      end
  end.

(** NonDecimalIntegerLiteral: [0x], [0o] or [0b] (either case) followed by
    one or more digits of that radix, and nothing else. *)
Definition parseNonDecimal (s : jsstring) : option N :=
  match s with
  | z :: x :: t =>
      let radix :=
        if (x =? 120) || (x =? 88) then Some 16
        else if (x =? 111) || (x =? 79) then Some 8
        else if (x =? 98) || (x =? 66) then Some 2
        else None in
      match radix with
      | Some r =>
          if z =? 48 then
            match readDigits r t 0 0 with
            | (v, S _, []) => Some v
            | _ => None
            end
          else None
      | None => None
      end
  | _ => None
  end.

(** An optional sign: whether it is a minus, and the rest. *)
Definition readSign (s : jsstring) : bool * jsstring :=
  match s with
  | c :: t => if c =? 45 then (true, t) else if c =? 43 then (false, t) else (false, s)
  | [] => (false, s)
  end.

(** StrUnsignedDecimalLiteral other than [Infinity]: digits, an optional
    fraction, an optional exponent part, and nothing else; at least one
    digit before the exponent.  The result [(d, e)] stands for [d * 10^e]. *)
Definition parseUnsignedDecimal (s : jsstring) : option (N * Z) :=
  let '(ip, ni, r1) := readDigits 10 s 0 0 in
  let '(d, nf, r2) :=
    match r1 with
    | c :: t => if c =? 46 then readDigits 10 t ip 0 else (ip, O, r1)
    | [] => (ip, O, r1)
    end in
  match (ni + nf)%nat with
  | O => None
  | S _ =>
      match r2 with
      | [] => Some (d, (- Z.of_nat nf)%Z)
      | c :: t =>
          if (c =? 101) || (c =? 69) then
            let '(eneg, t') := readSign t in
            match readDigits 10 t' 0 0 with
            | (ev, S _, []) =>
                Some (d, (cond_Zopp eneg (Z.of_N ev) - Z.of_nat nf)%Z)
            | _ => None
            end
          else None
      end
  end.

(** StringToNumber: surrounding white space is skipped; the empty string is
    [+0]; a string outside the StringNumericLiteral grammar is [NaN]. *)
Definition StringToNumber (s : jsstring) : number :=
  match trim s with
  | [] => S754_zero false
  | t =>
      match parseNonDecimal t with
      | Some v => number_of_Z (Z.of_N v)
      | None =>
          let '(neg, u) := readSign t in
          if str_eqb u (js "Infinity") then S754_infinity neg
          else
            match parseUnsignedDecimal u with
            | Some (d, e) => number_of_decimal neg d e
            | None => S754_nan
            end
      end
  end.

(** The global [isNaN] and [Number] applied to a string. *)
Definition isNaN (s : jsstring) : bool := is_nan (StringToNumber s).
Definition Number (s : jsstring) : number := StringToNumber s.

(** ** Values and objects *)

Inductive value :=
| VUndefined
| VNull
| VBool (b : bool)
| VNum (x : number)
| VStr (s : jsstring).

(** [v !== s] for a string [s], and [v !== null]. *)
Definition strict_neq_str (v : value) (s : jsstring) : bool :=
  match v with
  | VStr t => negb (str_eqb t s)
  | _ => true
  end.

Definition strict_neq_null (v : value) : bool :=
  match v with
  | VNull => false
  | _ => true
  end.

(** A plain object created by [{}]: its own string-keyed properties. *)
Abbreviation object := (gmap (list N) value) (only parsing).

(** [obj[k] = v] on a plain object, for [v] a number or a string.  The key
    [__proto__] reaches the setter inherited from [Object.prototype], which
    ignores a value that is neither an object nor null: no own property is
    created.  Every other key creates or overwrites an own property. *)
Definition obj_set (obj : object) (k : jsstring) (v : value) : object :=
  if str_eqb k (js "__proto__") then obj else <[k := v]> obj.

(** [Object.values(obj)]; the parser only asks whether some value passes a
    test, so the enumeration order is left to the map. *)
Definition Object_values (obj : object) : list value :=
  (map_to_list obj).*2.

(** [a.forEach((x, i) => ...)] threading the state the callback mutates. *)
Fixpoint forEach {A St : Type} (f : St -> A -> nat -> St) (a : list A)
    (i : nat) (st : St) : St :=
  match a with
  | [] => st
  | x :: t => forEach f t (S i) (f st x i)
  end.

(** Outcome of a call that may throw: the returned value or the message of
    the thrown error. *)
Inductive result (A : Type) :=
| Ok (a : A)
| Throw (msg : jsstring).
Arguments Ok {A} a.
Arguments Throw {A} msg.

(** ** The parser *)

Record ParsedTable := {
  headers : list jsstring;
  rows : list object
}.

(** The lines the parser works on:
    [text.trim().split(/\r?\n/).filter(l => l.trim())]. *)
Definition truthy (s : jsstring) : bool :=
  match s with
  | [] => false
  | _ :: _ => true
  end.

Definition nonBlankLines (text : jsstring) : list jsstring :=
  List.filter (fun l => truthy (trim l)) (split_lines (trim text)).

Definition isQuotedRow (firstLine : jsstring) : bool :=
  startsWith firstLine [QUOTE] &&
  endsWith firstLine [QUOTE] &&
  negb (includes (slice firstLine 1 (-1)) [QUOTE]).

(** The callback of [lines.map] in the quoted-row branch. *)
Definition stripLine (l : jsstring) : jsstring :=
  let t := trim l in
  if startsWith t [QUOTE] && endsWith t [QUOTE] then slice t 1 (-1) else t.

(** Headers and data lines of the quoted-row branch.  [stripped[0]] on an
    empty array would be [undefined] and the call of [split] on it a
    TypeError. *)
Definition quotedRowFormat (lines : list jsstring)
  : result (list jsstring * list jsstring) :=
  let stripped := map stripLine lines in
  match stripped !! 0%nat with
  | Some s0 => Ok (map trim (split COMMA s0), drop 1 stripped)
  | None => Throw (js "Cannot read properties of undefined (reading 'split')")
  end.

(** Headers and data lines of the standard branch. *)
Definition standardFormat (firstLine : jsstring) (lines : list jsstring)
  : list jsstring * list jsstring :=
  (map (fun h => replaceOuterQuotes (trim h)) (split COMMA firstLine),
   drop 1 lines).

(** [vals] of a data line. *)
Definition lineFields (line : jsstring) : list jsstring :=
  map (fun v => replaceOuterQuotes (trim v)) (split COMMA line).

(** [raw !== "" && !isNaN(raw) ? Number(raw) : raw]. *)
Definition fieldValue (raw : jsstring) : value :=
  if negb (str_eqb raw []) && negb (isNaN raw) then VNum (Number raw)
  else VStr raw.

(** The callback of [headers.forEach]: [vals[i] ?? ""] is the empty string
    when the index is past the end of [vals]. *)
Definition recordStep (vals : list jsstring) (obj : object) (h : jsstring)
    (i : nat) : object :=
  let raw := default [] (vals !! i) in
  obj_set obj h (fieldValue raw).

(** The record built from [vals], starting from [{}]. *)
Definition recordOf (hs : list jsstring) (vals : list jsstring) : object :=
  forEach (recordStep vals) hs 0%nat ∅.

Definition buildRecord (hs : list jsstring) (line : jsstring) : object :=
  recordOf hs (lineFields line).

(** The predicate of the final [filter]:
    [Object.values(r).some(v => v !== "" && v !== null)]. *)
Definition keepRecord (r : object) : bool :=
  existsb (fun v => strict_neq_str v [] && strict_neq_null v) (Object_values r).

Definition buildRows (hs : list jsstring) (dataLines : list jsstring)
  : list object :=
  List.filter keepRecord (map (buildRecord hs) dataLines).

(** The assignment of [headers] and [dataLines], from the throw on an empty
    file to the end of the two branches. *)
Definition headersAndDataLines (text : jsstring)
  : result (list jsstring * list jsstring) :=
  let lines := nonBlankLines text in
  match lines with
  | [] => Throw (js "Empty file")
  | l0 :: _ =>
      let firstLine := trim l0 in
      if isQuotedRow firstLine then quotedRowFormat lines
      else Ok (standardFormat firstLine lines)
  end.

Definition parseCSVBuiltIn (text : jsstring) : result ParsedTable :=
  match headersAndDataLines text with
  | Ok (hs, dataLines) => Ok {| headers := hs; rows := buildRows hs dataLines |}
  | Throw msg => Throw msg
  end.

(** ** The batch page *)

Definition REQ_COLS : list jsstring :=
  map js ["step"; "type"; "amount"; "oldbalanceOrg"; "newbalanceOrig";
          "oldbalanceDest"; "newbalanceDest"]%string.

(** Decimal rendering of an array length inside a template literal. *)
Definition length_toString (n : nat) : jsstring :=
  js (NilEmpty.string_of_uint (Nat.to_uint n)).

(** [REQ_COLS.filter(c => !headers.includes(c))], for any required list. *)
Definition missingColumns (req hs : list jsstring) : list jsstring :=
  List.filter (fun c => negb (arr_includes hs c)) req.

Definition missingColumnsMessage (miss hs : list jsstring) : jsstring :=
  js "Missing columns: " ++ join (js ", ") miss ++ js ". Found: " ++
  join (js ", ") hs.

(** The part of the page state that [handleFile] writes. *)
Record BatchState := {
  st_rows : list object;
  fileName : jsstring;
  parseErr : jsstring;
  parseInfo : jsstring
}.

Record File := {
  file_name : jsstring;
  file_text : jsstring
}.

(** What [handleFile] reads of the result of [Papa.parse]. *)
Record PapaResult := {
  data : list object;
  meta_fields : option (list jsstring)
}.

Definition setPErr (msg : jsstring) (st : BatchState) : BatchState :=
  {| st_rows := st_rows st; fileName := fileName st; parseErr := msg;
     parseInfo := parseInfo st |}.

Definition setPInfo (msg : jsstring) (st : BatchState) : BatchState :=
  {| st_rows := st_rows st; fileName := fileName st; parseErr := parseErr st;
     parseInfo := msg |}.

Definition setRows (r : list object) (st : BatchState) : BatchState :=
  {| st_rows := r; fileName := fileName st; parseErr := parseErr st;
     parseInfo := parseInfo st |}.

Definition setFN (n : jsstring) (st : BatchState) : BatchState :=
  {| st_rows := st_rows st; fileName := n; parseErr := parseErr st;
     parseInfo := parseInfo st |}.

(** The second [try] block of [handleFile], over any required list. *)
Definition builtInStage (req : list jsstring) (text : jsstring)
    (st : BatchState) : BatchState :=
  match parseCSVBuiltIn text with
  | Ok t =>
      let miss := missingColumns req (headers t) in
      let parsed := rows t in
      if (0 <? length miss)%nat then
        setPErr (missingColumnsMessage miss (headers t)) st
      else if (500 <? length parsed)%nat then
        setPErr (js "Max 500 rows allowed.") st
      else if (length parsed =? 0)%nat then
        setPErr (js "No data rows found.") st
      else
        setPInfo
          ([10003] ++ js " Built-in parser used (non-standard CSV format) " ++
           [183] ++ js " " ++ length_toString (length parsed) ++
           js " rows loaded")
          (setRows parsed st)
  | Throw msg => setPErr (js "Parse error: " ++ msg) st
  end.

Section HandleFile.

(** [Papa.parse(text, {header, skipEmptyLines, dynamicTyping})] of the
    PapaParse package, which is not part of the repository. *)
Variable Papa_parse : jsstring -> result PapaResult.

(** [hasCols && data.length > 0]. *)
Definition papaAccepted (r : PapaResult) : bool :=
  match meta_fields r with
  | Some fs => forallb (arr_includes fs) REQ_COLS
  | None => false
  end && (0 <? length (data r))%nat.

(** [handleFile] for a file whose [text()] has resolved with [file_text]:
    the part before the [await] and the part after it, run back to back. *)
Definition handleFile (file : option File) (st : BatchState) : BatchState :=
  match file with
  | None => st
  | Some f =>
      let st0 := setFN (file_name f) (setRows [] (setPInfo [] (setPErr [] st))) in
      let text := file_text f in
      match Papa_parse text with
      | Ok r =>
          if papaAccepted r then
            if (500 <? length (data r))%nat then
              setPErr (js "Max 500 rows allowed.") st0
            else
              setPInfo
                ([10003] ++ js " Parsed with PapaParse " ++ [183] ++ js " " ++
                 length_toString (length (data r)) ++ js " rows loaded")
                (setRows (data r) st0)
          else builtInStage REQ_COLS text st0
      | Throw _ => builtInStage REQ_COLS text st0
      end
  end.

End HandleFile.

(** ** Reading the file *)



Section HandleFileSteps.

Variable Papa_parse : jsstring -> result PapaResult.



End HandleFileSteps.

(** ** The predict form *)

(** [onChange] of the predict page, as the update it passes to [setForm]:
    [{...p, [name]: name === "type" ? value : value === "" ? "" :
    Number(value)}].  A computed key of an object literal always defines an
    own property. *)
Definition onChange (name value : jsstring) (p : object) : object :=
  <[ name := if str_eqb name (js "type") then VStr value
             else if str_eqb value [] then VStr []
             else VNum (Number value) ]> p.

(** ** The dashboard *)

(** ToBoolean. *)
Definition ToBoolean (v : value) : bool :=
  match v with
  | VUndefined | VNull => false
  | VBool b => b
  | VNum (S754_zero _) | VNum S754_nan => false
  | VNum _ => true
  | VStr s => truthy s
  end.

(** [h.k] for a history entry and a name that [Object.prototype] does not
    define: the own property, or [undefined]. *)
Definition get (h : object) (k : jsstring) : value :=
  default VUndefined (h !! k).

(** [v === s] for a string [s]. *)
Definition strict_eq_str (v : value) (s : jsstring) : bool :=
  match v with
  | VStr t => str_eqb t s
  | _ => false
  end.

Definition is_fraud (h : object) : bool := ToBoolean (get h (js "is_fraud")).

Definition total (history : list object) : nat := length history.

Definition fraudCount (history : list object) : nat :=
  length (List.filter is_fraud history).

Definition legitCount (history : list object) : Z :=
  (Z.of_nat (total history) - Z.of_nat (fraudCount history))%Z.

(** One bar group of the chart by transaction type. *)
Record TypeBar := {
  bar_type : jsstring;
  short : jsstring;
  fraud : nat;
  legit : nat
}.

Definition DASH_TYPES : list jsstring :=
  map js ["PAYMENT"; "TRANSFER"; "CASH_OUT"; "CASH_IN"; "DEBIT"]%string.

Definition typeBar (history : list object) (type : jsstring) : TypeBar :=
  {| bar_type := type;
     short := if str_eqb type (js "CASH_OUT") then js "C-OUT"
              else if str_eqb type (js "CASH_IN") then js "C-IN"
              else slice type 0 4;
     fraud := length (List.filter
                (fun h => strict_eq_str (get h (js "type")) type && is_fraud h)
                history);
     legit := length (List.filter
                (fun h => strict_eq_str (get h (js "type")) type &&
                          negb (is_fraud h))
                history) |}.

Definition byType (history : list object) : list TypeBar :=
  List.filter (fun d => (0 <? fraud d + legit d)%nat)
    (map (typeBar history) DASH_TYPES).

(** [Math.max(...a, 1)] on counts. *)
Definition maxBar (history : list object) : nat :=
  fold_right Nat.max 1%nat
    (map (fun d => (fraud d + legit d)%nat) (byType history)).

(** ** The history in local storage *)

(** What [JSON.parse] returns for a stored history: an array of entries, or
    a value that is not an array. *)
Inductive json :=
| JArray (a : list object)
| JNotArray.

Definition HK : jsstring := js "fg_history_v2".

(** [{ ...r, id: Date.now(), timestamp: new Date().toISOString() }]. *)
Definition stampEntry (r : object) (now : number) (iso : jsstring) : object :=
  <[ js "timestamp" := VStr iso ]> (<[ js "id" := VNum now ]> r).

Section History.

(** [JSON.parse] and [JSON.stringify] of the platform, and whether
    [localStorage.setItem] accepts a write (it throws when the quota is
    exceeded). *)
Variable JSON_parse : jsstring -> result json.
Variable JSON_stringify : list object -> jsstring.
Variable setItem_accepts : jsstring -> jsstring -> bool.

(** [localStorage.getItem(HK) || "[]"], parsed; [[]] when parsing throws. *)
Definition loadHistory (ls : gmap (list N) (list N)) : json :=
  let item :=
    match ls !! HK with
    | Some s => if truthy s then s else js "[]"
    | None => js "[]"
    end in
  match JSON_parse item with
  | Ok j => j
  | Throw _ => JArray []
  end.

(** [saveHistory]: the first 500 entries are written; a throw of [setItem]
    is swallowed and leaves the storage as it was. *)
Definition saveHistory (h : list object) (ls : gmap (list N) (list N))
  : gmap (list N) (list N) :=
  let item := JSON_stringify (slice h 0 500) in
  if setItem_accepts HK item then <[ HK := item ]> ls else ls.

(** [addToHistory]: [h.unshift] on a value that is not an array is a
    TypeError, which the function does not catch. *)
Definition addToHistory (r : object) (now : number) (iso : jsstring)
    (ls : gmap (list N) (list N)) : result (gmap (list N) (list N)) :=
  match loadHistory ls with
  | JArray h => Ok (saveHistory (stampEntry r now iso :: h) ls)
  | JNotArray => Throw (js "h.unshift is not a function")
  end.

Definition clearHistory (ls : gmap (list N) (list N)) : gmap (list N) (list N) :=
  delete HK ls.

End History.

(** ** The rules in the words of the specification *)

(** A line wrapped in one pair of outer double quotes. *)
Definition quoted (s : jsstring) : jsstring := [QUOTE] ++ s ++ [QUOTE].

(** The substring strictly between the first and the last code unit. *)
Definition between (l : jsstring) : jsstring := removelast (tail l).

(** Quoted-row format: the line starts with a double quote, ends with a
    double quote, and has no further double quote in between. *)
Definition quotedRowShape (l : jsstring) : Prop :=
  [QUOTE] `prefix_of` l /\ [QUOTE] `suffix_of` l /\ QUOTE ∉ between l.

(** Stripping one leading and one trailing double quote only when both are
    present. *)
Definition stripQuotePair (s : jsstring) : jsstring :=
  if startsWith s [QUOTE] && endsWith s [QUOTE] then slice s 1 (-1) else s.

(** The valid-finite-number test: the numeric conversion of the string is
    neither [NaN] nor an infinity. *)
Definition isValidFiniteNumber (s : jsstring) : bool :=
  is_finite (StringToNumber s).

(** A history entry whose [type] is one of the five types of the chart. *)
Definition knownType (h : object) : bool :=
  existsb (strict_eq_str (get h (js "type"))) DASH_TYPES.

(** A record whose values are all the empty string. *)
Definition allEmpty (r : object) : Prop :=
  forall k v, r !! k = Some v -> v = VStr [].

(** ** The primitives on small inputs *)

Example split_commas : split COMMA (js ",,,") = [[]; []; []; []].
Proof. reflexivity. Qed.

Example split_empty : split COMMA [] = [[]].
Proof. reflexivity. Qed.

Example split_lines_mixed :
  split_lines (js "a" ++ [CR; CR; LF] ++ js "b" ++ [LF; LF] ++ js "c")
  = [js "a" ++ [CR]; js "b"; []; js "c"].
Proof. reflexivity. Qed.

Example trim_both_ends : trim ([9; 160] ++ js " a b " ++ [CR; LF]) = js "a b".
Proof. reflexivity. Qed.

Example slice_single_unit : slice [QUOTE] 1 (-1) = [].
Proof. reflexivity. Qed.

Example replace_one_sided :
  map replaceOuterQuotes
    [quoted (js "a"); [QUOTE] ++ js "a"; js "a" ++ [QUOTE]; [QUOTE];
     js "a" ++ [QUOTE] ++ js "b"]
  = [js "a"; js "a"; js "a"; []; js "a" ++ [QUOTE] ++ js "b"].
Proof. reflexivity. Qed.

Example numbers_parsed :
  map StringToNumber
    [js "1"; js " 12 "; js "0x1F"; js "-0"; js ".5"; js "1e3"; js ""]
  = [number_of_Z 1; number_of_Z 12; number_of_Z 31; S754_zero true;
     number_of_decimal false 5 (-1); number_of_Z 1000; S754_zero false].
Proof. vm_compute. reflexivity. Qed.

Example numbers_rejected :
  map isNaN [js "PAYMENT"; js "1,2"; js "."; js "1e"; js "-0x10"; js "12abc";
             js "infinity"; js "1_000"]
  = [true; true; true; true; true; true; true; true].
Proof. vm_compute. reflexivity. Qed.

Example numbers_overflow :
  StringToNumber (js "1e309") = S754_infinity false /\
  StringToNumber (js "-Infinity") = S754_infinity true /\
  StringToNumber (js "0.1") = S754_finite false 7205759403792794 (-56).
Proof. repeat split; vm_compute; reflexivity. Qed.

Example proto_key_ignored :
  buildRecord [js "__proto__"; js "b"] (js "x,y") = {[ js "b" := VStr (js "y") ]}.
Proof. vm_compute. reflexivity. Qed.

(** ** Facts about the string primitives *)

Lemma trimStart_whitespace (s : jsstring) :
  forallb isWhiteSpace s = true -> trimStart s = [].
Proof.
  induction s as [|c t IH]; simpl; [reflexivity|].
  intros [Hc Ht]%andb_prop. rewrite Hc. auto.
Qed.

Lemma trim_whitespace (s : jsstring) :
  forallb isWhiteSpace s = true -> trim s = [].
Proof.
  intros H. unfold trim, trimEnd.
  rewrite (trimStart_whitespace s H). reflexivity.
Qed.

Lemma startsWith_quote (l : jsstring) :
  startsWith l [QUOTE] = true <-> [QUOTE] `prefix_of` l.
Proof.
  destruct l as [|c t]; simpl.
  - split; [discriminate|]. intros [k Hk]. discriminate.
  - rewrite andb_true_r, N.eqb_eq. split.
    + intros ->. exists t. reflexivity.
    + intros [k Hk]. simpl in Hk. congruence.
Qed.

Lemma endsWith_quote (l : jsstring) :
  endsWith l [QUOTE] = true <-> [QUOTE] `suffix_of` l.
Proof.
  unfold endsWith. simpl (rev [QUOTE]). rewrite startsWith_quote. split.
  - intros [k Hk]. exists (rev k).
    rewrite <- (rev_involutive l), Hk. simpl. reflexivity.
  - intros [k Hk]. exists (rev k). subst l.
    rewrite rev_app_distr. reflexivity.
Qed.

Lemma includes_unit (s : jsstring) (c : N) :
  includes s [c] = true <-> c ∈ s.
Proof.
  induction s as [|d t IH]; simpl.
  - split; [discriminate|]. intros H. inversion H.
  - rewrite andb_true_r, orb_true_iff, IH, N.eqb_eq, elem_of_cons.
    split; intros [H|H]; auto.
Qed.

Lemma slice_1_m1 (l : jsstring) : slice l 1 (-1) = between l.
Proof.
  unfold between. destruct l as [|c t]; [reflexivity|].
  unfold slice, clamp_index. cbn [tail length].
  change (1 <? 0)%Z with false. change (-1 <? 0)%Z with true. cbv iota.
  replace (Z.to_nat (Z.min 1 (Z.of_nat (S (length t))))) with 1%nat by lia.
  replace (Z.to_nat (Z.max (Z.of_nat (S (length t)) + -1) 0 -
                     Z.min 1 (Z.of_nat (S (length t)))))
    with (Nat.pred (length t)) by lia.
  cbn [drop]. rewrite removelast_firstn_len. reflexivity.
Qed.

Lemma isQuotedRow_spec (l : jsstring) :
  isQuotedRow l = true <-> quotedRowShape l.
Proof.
  unfold isQuotedRow, quotedRowShape.
  rewrite !andb_true_iff, negb_true_iff, startsWith_quote, endsWith_quote.
  rewrite slice_1_m1, <- not_true_iff_false, includes_unit. tauto.
Qed.

(** ** Empty input *)

(** C6: a text that is empty or consists only of white space has no
    non-blank line, and the parser throws the error [Empty file] instead of
    returning a table. *)
Theorem parse_blank_text_throws (text : jsstring) :
  forallb isWhiteSpace text = true ->
  nonBlankLines text = [] /\
  parseCSVBuiltIn text = Throw (js "Empty file").
Proof.
  intros H.
  assert (Hl : nonBlankLines text = []).
  { unfold nonBlankLines. rewrite (trim_whitespace text H). reflexivity. }
  split; [exact Hl|].
  unfold parseCSVBuiltIn, headersAndDataLines. rewrite Hl. reflexivity.
Qed.

Lemma parse_blank_text_throws_witness :
  forallb isWhiteSpace (js "  " ++ [LF; 9; CR; LF]) = true /\
  parseCSVBuiltIn (js "  " ++ [LF; 9; CR; LF]) = Throw (js "Empty file").
Proof.
  split; [reflexivity|].
  apply (parse_blank_text_throws (js "  " ++ [LF; 9; CR; LF])). reflexivity.
Defined.

(** ** Format detection *)

(** C2: when the text has a non-blank line, the quoted-row test of the
    parser holds exactly when the first such line, trimmed, starts and ends
    with a double quote and has none in between; in that case the table is
    the one of the quoted-row branch, and in every other case the one of the
    standard branch. *)
Theorem format_detection (text l0 : jsstring) (rest : list jsstring) :
  nonBlankLines text = l0 :: rest ->
  (isQuotedRow (trim l0) = true <-> quotedRowShape (trim l0)) /\
  (quotedRowShape (trim l0) ->
     headersAndDataLines text = quotedRowFormat (l0 :: rest) /\
     parseCSVBuiltIn text =
       Ok {| headers := map trim (split COMMA (stripLine l0));
             rows := buildRows (map trim (split COMMA (stripLine l0)))
                       (map stripLine rest) |}) /\
  (~ quotedRowShape (trim l0) ->
     headersAndDataLines text = Ok (standardFormat (trim l0) (l0 :: rest)) /\
     parseCSVBuiltIn text =
       Ok {| headers := map (fun h => replaceOuterQuotes (trim h))
                          (split COMMA (trim l0));
             rows := buildRows
                       (map (fun h => replaceOuterQuotes (trim h))
                          (split COMMA (trim l0)))
                       rest |}).
Proof.
  intros Hl. split; [apply isQuotedRow_spec|].
  unfold parseCSVBuiltIn, headersAndDataLines. rewrite Hl. cbv zeta.
  split; intros Hq.
  - apply isQuotedRow_spec in Hq. rewrite Hq. split; reflexivity.
  - rewrite <- isQuotedRow_spec, not_true_iff_false in Hq. rewrite Hq.
    split; reflexivity.
Qed.

Lemma format_detection_witness :
  let text := quoted (js "x,y") ++ [CR; LF] ++ quoted (js "1,2") in
  nonBlankLines text = [quoted (js "x,y"); quoted (js "1,2")] /\
  quotedRowShape (trim (quoted (js "x,y"))) /\
  parseCSVBuiltIn text
    = Ok {| headers := [js "x"; js "y"];
            rows := [ {[ js "x" := VNum (number_of_Z 1);
                         js "y" := VNum (number_of_Z 2) ]} ] |}.
Proof.
  cbv zeta.
  assert (Hl : nonBlankLines (quoted (js "x,y") ++ [CR; LF] ++ quoted (js "1,2"))
               = [quoted (js "x,y"); quoted (js "1,2")]) by reflexivity.
  destruct (format_detection _ _ _ Hl) as (Hiff & Hquoted & _).
  assert (Hq : quotedRowShape (trim (quoted (js "x,y"))))
    by (apply Hiff; reflexivity).
  split; [exact Hl|]. split; [exact Hq|].
  rewrite (proj2 (Hquoted Hq)). vm_compute. reflexivity.
Defined.

(** ** Facts about records *)

Lemma obj_set_lookup_ne (obj : gmap (list N) value) (h k : jsstring) (v : value) :
  h <> k -> obj_set obj h v !! k = obj !! k.
Proof.
  intros Hne. unfold obj_set, str_eqb. case_bool_decide; [reflexivity|].
  apply lookup_insert_ne. exact Hne.
Qed.

Lemma obj_set_lookup_eq (obj : gmap (list N) value) (k : jsstring) (v : value) :
  k <> js "__proto__" -> obj_set obj k v !! k = Some v.
Proof.
  intros Hne. unfold obj_set, str_eqb. case_bool_decide; [contradiction|].
  apply lookup_insert_eq.
Qed.

Lemma obj_set_lookup_inv (obj : gmap (list N) value) (h k : jsstring) (v w : value) :
  obj_set obj h v !! k = Some w ->
  obj !! k = Some w \/ (h = k /\ k <> js "__proto__" /\ w = v).
Proof.
  unfold obj_set, str_eqb. case_bool_decide as Hp; [auto|].
  destruct (decide (h = k)) as [->|Hne].
  - rewrite lookup_insert_eq. intros [= <-]. auto.
  - rewrite lookup_insert_ne by exact Hne. auto.
Qed.

Section RecordLoop.

Variable vals : list jsstring.

Lemma forEach_app {A St : Type} (f : St -> A -> nat -> St) (a b : list A)
    (i : nat) (st : St) :
  forEach f (a ++ b) i st = forEach f b (i + length a) (forEach f a i st).
Proof.
  revert i st. induction a as [|x a IH]; intros i st; simpl.
  - rewrite Nat.add_0_r. reflexivity.
  - rewrite IH. f_equal. lia.
Qed.

Lemma record_loop_notin (hs : list jsstring) (i : nat)
    (obj : gmap (list N) value) (k : jsstring) :
  k ∉ hs -> forEach (recordStep vals) hs i obj !! k = obj !! k.
Proof.
  revert i obj. induction hs as [|h hs IH]; intros i obj Hk; simpl.
  - reflexivity.
  - apply not_elem_of_cons in Hk as [Hne Hk].
    rewrite IH by exact Hk. apply obj_set_lookup_ne. congruence.
Qed.

Lemma record_loop_inv (hs : list jsstring) (i : nat)
    (obj : gmap (list N) value) (k : jsstring) (v : value) :
  forEach (recordStep vals) hs i obj !! k = Some v ->
  obj !! k = Some v \/
  exists j, hs !! j = Some k /\ k <> js "__proto__" /\
            v = fieldValue (default [] (vals !! (i + j)%nat)).
Proof.
  revert i obj. induction hs as [|h hs IH]; intros i obj; simpl.
  - auto.
  - intros H. apply IH in H as [H|(j & Hj & Hp & Hv)].
    + apply obj_set_lookup_inv in H as [H|(-> & Hp & ->)]; [auto|].
      right. exists 0%nat. rewrite Nat.add_0_r. auto.
    + right. exists (S j). replace (i + S j)%nat with (S i + j)%nat by lia.
      auto.
Qed.

Lemma record_loop_last (hs : list jsstring) (i j : nat)
    (obj : gmap (list N) value) (k : jsstring) :
  k <> js "__proto__" -> hs !! j = Some k -> k ∉ drop (S j) hs ->
  forEach (recordStep vals) hs i obj !! k =
    Some (fieldValue (default [] (vals !! (i + j)%nat))).
Proof.
  intros Hp Hj Hlast.
  rewrite <- (take_drop_middle hs j k Hj), forEach_app. cbn [forEach].
  rewrite record_loop_notin by exact Hlast.
  assert (Hlen : length (take j hs) = j).
  { apply length_take_le. apply lookup_lt_Some in Hj. lia. }
  rewrite Hlen. apply obj_set_lookup_eq. exact Hp.
Qed.

Lemma record_loop_past_end (hs : list jsstring) (i : nat)
    (obj : gmap (list N) value) (k : jsstring) :
  k <> js "__proto__" -> k ∈ hs -> (length vals <= i)%nat ->
  forEach (recordStep vals) hs i obj !! k = Some (VStr []).
Proof.
  intros Hp. revert i obj. induction hs as [|h hs IH]; intros i obj Hk Hi.
  - inversion Hk.
  - simpl. destruct (decide (k ∈ hs)) as [Hin|Hnin].
    + apply IH; [exact Hin | lia].
    + apply elem_of_cons in Hk as [->|Hk]; [|contradiction].
      rewrite record_loop_notin by exact Hnin.
      unfold recordStep. rewrite (lookup_ge_None_2 vals i) by lia.
      apply obj_set_lookup_eq. exact Hp.
Qed.

End RecordLoop.

Lemma record_loop_ext (vals vals' hs : list jsstring) (i : nat)
    (obj : gmap (list N) value) :
  (forall j, (i <= j < i + length hs)%nat -> vals !! j = vals' !! j) ->
  forEach (recordStep vals) hs i obj = forEach (recordStep vals') hs i obj.
Proof.
  revert i obj. induction hs as [|h hs IH]; intros i obj Hext; simpl.
  - reflexivity.
  - unfold recordStep at 2 4. rewrite (Hext i) by (simpl; lia). apply IH.
    intros j Hj. apply Hext. simpl. lia.
Qed.

Lemma fieldValue_cases (raw : jsstring) :
  (raw <> [] /\ isNaN raw = false /\ fieldValue raw = VNum (Number raw)) \/
  ((raw = [] \/ isNaN raw = true) /\ fieldValue raw = VStr raw).
Proof.
  unfold fieldValue, str_eqb. case_bool_decide as He; simpl.
  - right. auto.
  - destruct (isNaN raw); simpl; [right|left]; auto.
Qed.

Lemma fieldValue_empty_iff (raw : jsstring) :
  fieldValue raw = VStr [] <-> raw = [].
Proof.
  split; [|intros ->; reflexivity].
  destruct (fieldValue_cases raw) as [(_ & _ & ->)|(_ & ->)]; congruence.
Qed.

Lemma recordOf_lookup_inv (hs vals : list jsstring) (k : jsstring) (v : value) :
  recordOf hs vals !! k = Some v ->
  exists j, hs !! j = Some k /\ k <> js "__proto__" /\
            v = fieldValue (default [] (vals !! j)).
Proof.
  unfold recordOf. intros H.
  apply record_loop_inv in H as [H|H]; [|exact H].
  rewrite lookup_empty in H. discriminate.
Qed.

Lemma existsb_false_iff {A : Type} (p : A -> bool) (l : list A) :
  existsb p l = false <-> forall x, x ∈ l -> p x = false.
Proof.
  induction l as [|a l IH]; simpl.
  - split; [|reflexivity]. intros _ x Hx. inversion Hx.
  - rewrite orb_false_iff, IH. split.
    + intros [Ha Hl] x [->|Hx]%elem_of_cons; auto.
    + intros H. split; [|intros x Hx]; apply H; apply elem_of_cons; auto.
Qed.

Lemma keepRecord_false_iff (r : gmap (list N) value) :
  keepRecord r = false <->
  forall k v, r !! k = Some v -> v = VStr [] \/ v = VNull.
Proof.
  unfold keepRecord, Object_values. rewrite existsb_false_iff.
  assert (Hp : forall v, strict_neq_str v [] && strict_neq_null v = false <->
                         (v = VStr [] \/ v = VNull)).
  { intros v. destruct v as [| |b|x|s]; simpl;
      try (split; [discriminate | intros [?|?]; discriminate]).
    - split; auto.
    - unfold str_eqb. case_bool_decide as Hs; simpl.
      + subst s. split; auto.
      + split; [discriminate|]. intros [[= ->]|?]; [contradiction|discriminate]. }
  split.
  - intros H k v Hkv. apply Hp, H.
    apply list_elem_of_fmap. exists (k, v). split; [reflexivity|].
    apply elem_of_map_to_list. exact Hkv.
  - intros H v Hv. apply Hp.
    apply list_elem_of_fmap in Hv as ([k w] & -> & Hkw).
    apply elem_of_map_to_list in Hkw. apply (H k). exact Hkw.
Qed.

(** The values of a built record are numbers other than [NaN], or strings. *)
Lemma recordOf_value_kind (hs vals : list jsstring) (k : jsstring) (v : value) :
  recordOf hs vals !! k = Some v ->
  (exists x, v = VNum x /\ is_nan x = false) \/ (exists s, v = VStr s).
Proof.
  intros (j & _ & _ & ->)%recordOf_lookup_inv.
  destruct (fieldValue_cases (default [] (vals !! j)))
    as [(_ & Hn & ->)|(_ & ->)]; eauto.
Qed.

Lemma keepRecord_recordOf (hs vals : list jsstring) :
  keepRecord (recordOf hs vals) = false <-> allEmpty (recordOf hs vals).
Proof.
  rewrite keepRecord_false_iff. unfold allEmpty. split; intros H k v Hkv.
  - destruct (H k v Hkv) as [Hv|Hv]; [exact Hv|].
    apply recordOf_value_kind in Hkv as [(x & -> & _)|(s & ->)]; discriminate.
  - left. eauto.
Qed.

Lemma keepRecord_buildRecord (hs : list jsstring) (line : jsstring) :
  keepRecord (buildRecord hs line) = false <-> allEmpty (buildRecord hs line).
Proof. apply keepRecord_recordOf. Qed.

(** ** Shape of a successful parse *)

Lemma parse_ok_inv (text : jsstring) (t : ParsedTable) :
  parseCSVBuiltIn text = Ok t ->
  exists dl, headersAndDataLines text = Ok (headers t, dl) /\
             rows t = buildRows (headers t) dl.
Proof.
  unfold parseCSVBuiltIn.
  destruct (headersAndDataLines text) as [[hs dl]|m]; [|discriminate].
  intros [= <-]. exists dl. auto.
Qed.

Lemma headersAndDataLines_length (text : jsstring) (hs dl : list jsstring) :
  headersAndDataLines text = Ok (hs, dl) ->
  length dl = length (drop 1 (nonBlankLines text)).
Proof.
  unfold headersAndDataLines.
  destruct (nonBlankLines text) as [|l0 rest]; [discriminate|].
  cbv zeta. destruct (isQuotedRow (trim l0)).
  - unfold quotedRowFormat. cbn. intros [= _ <-]. apply length_map.
  - unfold standardFormat. cbn. intros [= _ <-]. reflexivity.
Qed.

Lemma filter_nil_iff {A : Type} (p : A -> bool) (l : list A) :
  List.filter p l = [] <-> forall x, x ∈ l -> p x = false.
Proof.
  induction l as [|a l IH]; simpl.
  - split; [|reflexivity]. intros _ x Hx. inversion Hx.
  - destruct (p a) eqn:Ha.
    + split; [discriminate|]. intros H.
      rewrite (H a) in Ha by (apply elem_of_cons; auto). discriminate.
    + rewrite IH. split.
      * intros H x [->|Hx]%elem_of_cons; auto.
      * intros H x Hx. apply H. apply elem_of_cons. auto.
Qed.

Lemma elem_of_buildRows (hs dl : list jsstring) (r : gmap (list N) value) :
  r ∈ buildRows hs dl <->
  keepRecord r = true /\ exists line, line ∈ dl /\ r = buildRecord hs line.
Proof.
  unfold buildRows. rewrite list_elem_of_In, filter_In, in_map_iff.
  split.
  - intros [(line & <- & Hl) Hk]. split; [exact Hk|].
    exists line. rewrite list_elem_of_In. auto.
  - intros [Hk (line & Hl & ->)]. split; [|exact Hk].
    exists line. rewrite <- list_elem_of_In. auto.
Qed.

(** ** The two formats on the example of the specification *)

(** C1: for the two-line text whose lines are [a,b,c] and [1,2,3], each
    wrapped in one pair of double quotes, the parser returns the same table
    as for the unwrapped text: headers [a], [b], [c] and one row mapping
    [a] to 1, [b] to 2 and [c] to 3, with either line ending. *)
Theorem quoted_rows_same_as_standard :
  let expected :=
    Ok {| headers := [js "a"; js "b"; js "c"];
          rows := [ {[ js "a" := VNum (number_of_Z 1);
                       js "b" := VNum (number_of_Z 2);
                       js "c" := VNum (number_of_Z 3) ]} ] |} in
  Forall
    (fun eol =>
       parseCSVBuiltIn (quoted (js "a,b,c") ++ eol ++ quoted (js "1,2,3"))
         = expected /\
       parseCSVBuiltIn (js "a,b,c" ++ eol ++ js "1,2,3") = expected /\
       isQuotedRow (trim (quoted (js "a,b,c"))) = true /\
       isQuotedRow (trim (js "a,b,c")) = false)
    [[LF]; [CR; LF]].
Proof.
  cbv zeta. repeat constructor; vm_compute; reflexivity.
Qed.

(** ** Field typing *)

(** C3, as the specification states it, fails: the field [Infinity] does not
    pass a valid-finite-number test, yet the parser stores it as a number,
    the infinite one. *)
Lemma finite_number_test_counterexample :
  isValidFiniteNumber (replaceOuterQuotes (trim (js "Infinity"))) = false /\
  fieldValue (replaceOuterQuotes (trim (js "Infinity")))
    = VNum (S754_infinity false) /\
  parseCSVBuiltIn (js "amount" ++ [LF] ++ js "Infinity")
    = Ok {| headers := [js "amount"];
            rows := [ {[ js "amount" := VNum (S754_infinity false) ]} ] |}.
Proof.
  repeat split; vm_compute; reflexivity.
Qed.

(** C3, amended: every value of a built record comes from the field [raw] at
    the position of its header (the trimmed piece with its outer quotes
    removed, or the empty string past the last piece); it is the number
    [Number(raw)] exactly when [raw] is not empty and its numeric conversion
    is not [NaN], and it is the string [raw] itself otherwise.  [PAYMENT]
    stays a string and [9839.64] becomes the number 9839.64. *)
Theorem field_typing :
  (forall (hs : list jsstring) (line k : jsstring) (v : value),
     buildRecord hs line !! k = Some v ->
     exists (j : nat) (raw : jsstring),
       hs !! j = Some k /\
       raw = default [] (lineFields line !! j) /\
       ((raw <> [] /\ isNaN raw = false /\ v = VNum (Number raw)) \/
        ((raw = [] \/ isNaN raw = true) /\ v = VStr raw))) /\
  (forall (hs : list jsstring) (line k : jsstring) (j : nat),
     hs !! j = Some k -> k ∉ drop (S j) hs -> k <> js "__proto__" ->
     buildRecord hs line !! k
       = Some (fieldValue (default [] (lineFields line !! j)))) /\
  fieldValue (js "PAYMENT") = VStr (js "PAYMENT") /\
  fieldValue (js "9839.64") = VNum (number_of_decimal false 983964 (-2)) /\
  number_of_decimal false 983964 (-2)
    = S754_finite false 5409399296564920 (-39).
Proof.
  split; [|split; [|repeat split; vm_compute; reflexivity]].
  - intros hs line k v (j & Hj & _ & ->)%recordOf_lookup_inv.
    exists j, (default [] (lineFields line !! j)).
    split; [exact Hj|]. split; [reflexivity|].
    destruct (fieldValue_cases (default [] (lineFields line !! j)))
      as [(Hne & Hn & ->)|(H & ->)]; auto.
  - intros hs line k j Hj Hlast Hp. unfold buildRecord, recordOf.
    apply (record_loop_last (lineFields line) hs 0 j ∅ k Hp Hj Hlast).
Qed.

Lemma field_typing_witness :
  buildRecord [js "type"; js "amount"] (js "PAYMENT,9839.64") !! js "amount"
    = Some (VNum (Number (js "9839.64"))) /\
  exists (j : nat) (raw : jsstring),
    [js "type"; js "amount"] !! j = Some (js "amount") /\
    raw = default [] (lineFields (js "PAYMENT,9839.64") !! j) /\
    ((raw <> [] /\ isNaN raw = false /\
      VNum (Number (js "9839.64")) = VNum (Number raw)) \/
     ((raw = [] \/ isNaN raw = true) /\
      VNum (Number (js "9839.64")) = VStr raw)).
Proof.
  assert (H : buildRecord [js "type"; js "amount"] (js "PAYMENT,9839.64")
                !! js "amount" = Some (VNum (Number (js "9839.64"))))
    by (vm_compute; reflexivity).
  split; [exact H|].
  exact (proj1 field_typing _ _ _ _ H).
Defined.

(** ** Row filtering *)

(** C4, as the specification states it, fails: under the header [a,b] the
    data line [,,] is not blank, the parser succeeds, and [rows] is empty. *)
Lemma empty_rows_counterexample :
  drop 1 (nonBlankLines (js "a,b" ++ [LF] ++ js ",,")) = [js ",,"] /\
  parseCSVBuiltIn (js "a,b" ++ [LF] ++ js ",,")
    = Ok {| headers := [js "a"; js "b"]; rows := [] |}.
Proof.
  split; vm_compute; reflexivity.
Qed.

(** C4, amended: on success [rows] has zero entries exactly when every data
    line builds a record whose values are all the empty string; there is one
    data line per non-blank line after the header line, so this includes the
    case of no such line. *)
Theorem empty_rows_iff (text : jsstring) (t : ParsedTable) :
  parseCSVBuiltIn text = Ok t ->
  exists dl,
    headersAndDataLines text = Ok (headers t, dl) /\
    length dl = length (drop 1 (nonBlankLines text)) /\
    (rows t = [] <->
     forall line, line ∈ dl -> allEmpty (buildRecord (headers t) line)) /\
    (drop 1 (nonBlankLines text) = [] -> rows t = []).
Proof.
  intros (dl & Hd & Hr)%parse_ok_inv. exists dl.
  pose proof (headersAndDataLines_length _ _ _ Hd) as Hlen.
  assert (Hiff : rows t = [] <->
            forall line, line ∈ dl -> allEmpty (buildRecord (headers t) line)).
  { rewrite Hr. unfold buildRows. rewrite filter_nil_iff. split.
    - intros H line Hl. apply keepRecord_buildRecord. apply H.
      apply list_elem_of_In, in_map, list_elem_of_In. exact Hl.
    - intros H r Hin.
      apply list_elem_of_In, in_map_iff in Hin as (line & <- & Hl).
      apply keepRecord_buildRecord. apply H. apply list_elem_of_In. exact Hl. }
  repeat split; try tauto.
  intros Hnil. apply Hiff. rewrite Hnil in Hlen.
  destruct dl; [|discriminate]. intros line Hl. inversion Hl.
Qed.

Lemma empty_rows_iff_witness :
  parseCSVBuiltIn (js "a" ++ [LF] ++ js ",5")
    = Ok {| headers := [js "a"]; rows := [] |} /\
  exists dl,
    headersAndDataLines (js "a" ++ [LF] ++ js ",5") = Ok ([js "a"], dl) /\
    length dl = 1%nat /\
    forall line, line ∈ dl -> allEmpty (buildRecord [js "a"] line).
Proof.
  assert (H : parseCSVBuiltIn (js "a" ++ [LF] ++ js ",5")
                = Ok {| headers := [js "a"]; rows := [] |})
    by (vm_compute; reflexivity).
  split; [exact H|].
  destruct (empty_rows_iff _ _ H) as (dl & Hd & Hlen & Hiff & _).
  exists dl. split; [exact Hd|]. split; [exact Hlen|].
  apply Hiff. reflexivity.
Defined.

(** C7: the record built from a data line is left out of [rows] exactly
    when every one of its values is the empty string (or null or
    undefined); a data line whose fields are all empty, such as [,,,],
    contributes no entry, whatever the headers. *)
Theorem blank_records_dropped (text : jsstring) (t : ParsedTable) :
  parseCSVBuiltIn text = Ok t ->
  exists dl,
    headersAndDataLines text = Ok (headers t, dl) /\
    rows t = List.filter keepRecord (map (buildRecord (headers t)) dl) /\
    (forall line, line ∈ dl ->
       (buildRecord (headers t) line ∉ rows t <->
        forall k v, buildRecord (headers t) line !! k = Some v ->
                    v = VStr [] \/ v = VNull \/ v = VUndefined)) /\
    (forall line, line ∈ dl ->
       Forall (fun f => f = []) (lineFields line) ->
       buildRecord (headers t) line ∉ rows t) /\
    (js ",,," ∈ dl -> buildRecord (headers t) (js ",,,") ∉ rows t).
Proof.
  intros (dl & Hd & Hr)%parse_ok_inv. exists dl.
  assert (Hout : forall line, line ∈ dl ->
            (buildRecord (headers t) line ∉ rows t <->
             keepRecord (buildRecord (headers t) line) = false)).
  { intros line Hl. rewrite Hr, elem_of_buildRows, <- not_true_iff_false.
    split; [|tauto]. intros H Hk. apply H. split; [exact Hk|]. eauto. }
  assert (Hblank : forall line, line ∈ dl ->
            Forall (fun f => f = []) (lineFields line) ->
            buildRecord (headers t) line ∉ rows t).
  { intros line Hl Hall. apply (Hout line Hl), keepRecord_buildRecord.
    intros k v (j & _ & _ & ->)%recordOf_lookup_inv.
    apply fieldValue_empty_iff.
    destruct (lineFields line !! j) as [f|] eqn:Hf; [|reflexivity].
    simpl. rewrite Forall_forall in Hall. apply Hall.
    eapply list_elem_of_lookup_2. exact Hf. }
  split; [exact Hd|]. split; [exact Hr|]. split; [|split; [exact Hblank|]].
  - intros line Hl. rewrite (Hout line Hl). split.
    + intros Hk%keepRecord_buildRecord k v Hkv. left. eauto.
    + intros H. apply keepRecord_buildRecord. intros k v Hkv.
      destruct (H k v Hkv) as [Hv|[Hv|Hv]]; [exact Hv| |];
        apply recordOf_value_kind in Hkv as [(x & -> & _)|(s & ->)];
        discriminate.
  - intros Hl. apply (Hblank _ Hl). repeat constructor.
Qed.

Lemma blank_records_dropped_witness :
  parseCSVBuiltIn (js "a,b,c,d" ++ [LF] ++ js ",,," ++ [LF] ++ js "1,,,")
    = Ok {| headers := map js ["a"; "b"; "c"; "d"]%string;
            rows := [ {[ js "a" := VNum (number_of_Z 1); js "b" := VStr [];
                         js "c" := VStr []; js "d" := VStr [] ]} ] |} /\
  exists dl,
    headersAndDataLines
      (js "a,b,c,d" ++ [LF] ++ js ",,," ++ [LF] ++ js "1,,,")
      = Ok (map js ["a"; "b"; "c"; "d"]%string, dl) /\
    js ",,," ∈ dl /\
    buildRecord (map js ["a"; "b"; "c"; "d"]%string) (js ",,,")
      ∉ [ ({[ js "a" := VNum (number_of_Z 1); js "b" := VStr [];
              js "c" := VStr []; js "d" := VStr [] ]} : gmap (list N) value) ].
Proof.
  assert (H : parseCSVBuiltIn
                (js "a,b,c,d" ++ [LF] ++ js ",,," ++ [LF] ++ js "1,,,")
              = Ok {| headers := map js ["a"; "b"; "c"; "d"]%string;
                      rows := [ {[ js "a" := VNum (number_of_Z 1);
                                   js "b" := VStr []; js "c" := VStr [];
                                   js "d" := VStr [] ]} ] |})
    by (vm_compute; reflexivity).
  split; [exact H|].
  destruct (blank_records_dropped _ _ H) as (dl & Hd & _ & _ & _ & Hcommas).
  exists dl. split; [exact Hd|].
  assert (Hin : js ",,," ∈ dl).
  { vm_compute in Hd. injection Hd as <-. apply elem_of_cons. left.
    reflexivity. }
  split; [exact Hin|]. exact (Hcommas Hin).
Defined.

(** ** Quote stripping of fields *)

Lemma dropEndQuote_snoc (m : jsstring) : dropEndQuote (m ++ [QUOTE]) = m.
Proof.
  unfold dropEndQuote. rewrite rev_app_distr. simpl.
  apply rev_involutive.
Qed.

Lemma dropEndQuote_id (m : jsstring) :
  ~ [QUOTE] `suffix_of` m -> dropEndQuote m = m.
Proof.
  intros Hs. unfold dropEndQuote. destruct (rev m) as [|c r] eqn:Hr.
  - reflexivity.
  - destruct (N.eqb_spec c QUOTE) as [->|Hc]; [|reflexivity].
    exfalso. apply Hs. exists (rev r).
    rewrite <- (rev_involutive m), Hr. reflexivity.
Qed.

Lemma replaceOuterQuotes_no_prefix (s : jsstring) :
  ~ [QUOTE] `prefix_of` s -> replaceOuterQuotes s = dropEndQuote s.
Proof.
  intros Hp. destruct s as [|c t]; [reflexivity|]. simpl.
  destruct (N.eqb_spec c QUOTE) as [->|Hc]; [|reflexivity].
  exfalso. apply Hp. exists t. reflexivity.
Qed.

(** C5, as the specification states it, fails: in the standard branch the
    header field and the data field that carry a double quote on one end
    only lose it, where stripping a pair only would keep it. *)
Lemma quote_pair_counterexample :
  let text := [QUOTE] ++ js "a,b" ++ [LF] ++ js "x,7" ++ [QUOTE] in
  nonBlankLines text = [[QUOTE] ++ js "a,b"; js "x,7" ++ [QUOTE]] /\
  isQuotedRow (trim ([QUOTE] ++ js "a,b")) = false /\
  parseCSVBuiltIn text
    = Ok {| headers := [js "a"; js "b"];
            rows := [ {[ js "a" := VStr (js "x");
                         js "b" := VNum (number_of_Z 7) ]} ] |} /\
  map (fun h => stripQuotePair (trim h)) (split COMMA ([QUOTE] ++ js "a,b"))
    = [[QUOTE] ++ js "a"; js "b"] /\
  map (fun v => stripQuotePair (trim v)) (split COMMA (js "x,7" ++ [QUOTE]))
    = [js "x"; js "7" ++ [QUOTE]].
Proof.
  cbv zeta. repeat split; vm_compute; reflexivity.
Qed.

(** C5, amended: in the standard branch every header field and every data
    field is the piece between commas, trimmed, with a leading double quote
    removed if there is one and a trailing double quote removed if there is
    one, each on its own: a field quoted on one end only loses that quote. *)
Theorem standard_fields (text l0 : jsstring) (rest : list jsstring) :
  nonBlankLines text = l0 :: rest ->
  isQuotedRow (trim l0) = false ->
  let strip := fun f => replaceOuterQuotes (trim f) in
  let hs := map strip (split COMMA (trim l0)) in
  parseCSVBuiltIn text
    = Ok {| headers := hs;
            rows := List.filter keepRecord
                      (map (fun line => recordOf hs (map strip (split COMMA line)))
                         rest) |} /\
  (forall m, replaceOuterQuotes (quoted m) = m) /\
  (forall m, ~ [QUOTE] `suffix_of` m -> replaceOuterQuotes (QUOTE :: m) = m) /\
  (forall m, ~ [QUOTE] `prefix_of` m -> replaceOuterQuotes (m ++ [QUOTE]) = m) /\
  (forall m, ~ [QUOTE] `prefix_of` m -> ~ [QUOTE] `suffix_of` m ->
             replaceOuterQuotes m = m).
Proof.
  intros Hl Hq. cbv zeta. split.
  { unfold parseCSVBuiltIn, headersAndDataLines. rewrite Hl. cbv zeta.
    rewrite Hq. reflexivity. }
  split; [|split; [|split]].
  - intros m. unfold quoted. simpl. apply dropEndQuote_snoc.
  - intros m Hs. simpl. apply dropEndQuote_id. exact Hs.
  - intros m Hp. destruct m as [|c m'].
    + reflexivity.
    + rewrite replaceOuterQuotes_no_prefix.
      * apply dropEndQuote_snoc.
      * intros [k Hk]. apply Hp. simpl in Hk. injection Hk as -> _.
        exists m'. reflexivity.
  - intros m Hp Hs. rewrite replaceOuterQuotes_no_prefix by exact Hp.
    apply dropEndQuote_id. exact Hs.
Qed.

Lemma standard_fields_witness :
  nonBlankLines (js "a , b" ++ [CR; LF] ++ js " 1,x")
    = [js "a , b"; js " 1,x"] /\
  isQuotedRow (trim (js "a , b")) = false /\
  parseCSVBuiltIn (js "a , b" ++ [CR; LF] ++ js " 1,x")
    = Ok {| headers := map (fun f => replaceOuterQuotes (trim f))
                         (split COMMA (trim (js "a , b")));
            rows := List.filter keepRecord
                      (map
                         (fun line =>
                            recordOf
                              (map (fun f => replaceOuterQuotes (trim f))
                                 (split COMMA (trim (js "a , b"))))
                              (map (fun f => replaceOuterQuotes (trim f))
                                 (split COMMA line)))
                         [js " 1,x"]) |}.
Proof.
  split; [reflexivity|]. split; [reflexivity|].
  apply (standard_fields (js "a , b" ++ [CR; LF] ++ js " 1,x")
           (js "a , b") [js " 1,x"]); reflexivity.
Defined.

(** ** Short and long data lines *)

Lemma buildRecord_past_end (hs : list jsstring) (line k : jsstring) (j : nat) :
  hs !! j = Some k -> (length (lineFields line) <= j)%nat ->
  k <> js "__proto__" ->
  buildRecord hs line !! k = Some (VStr []).
Proof.
  intros Hj Hlen Hp. unfold buildRecord, recordOf.
  rewrite <- (take_drop j hs), forEach_app.
  apply record_loop_past_end.
  - exact Hp.
  - rewrite (drop_S hs k j Hj). apply elem_of_cons. auto.
  - rewrite length_take_le; [simpl; lia|].
    apply lookup_lt_Some in Hj. lia.
Qed.

(** C8, as the specification states it, fails: under the headers [a] and
    [__proto__] the data line [1] has no second field, yet the built record
    holds no empty string for the second header; it has no such key. *)
Lemma proto_header_counterexample :
  length (lineFields (js "1")) = 1%nat /\
  [js "a"; js "__proto__"] !! 1%nat = Some (js "__proto__") /\
  buildRecord [js "a"; js "__proto__"] (js "1") !! js "__proto__" = None /\
  buildRecord [js "a"; js "__proto__"] (js "1")
    = {[ js "a" := VNum (number_of_Z 1) ]} /\
  parseCSVBuiltIn (js "a,__proto__" ++ [LF] ++ js "1")
    = Ok {| headers := [js "a"; js "__proto__"];
            rows := [ {[ js "a" := VNum (number_of_Z 1) ]} ] |}.
Proof.
  repeat split; vm_compute; reflexivity.
Qed.

(** C8, amended: when a data line has fewer fields than there are headers,
    every header past the last field, other than one named [__proto__],
    gets the empty string in the built record, and a header named
    [__proto__] names no field of the record at all; when
    it has more, the record is the one built from the first fields
    only, as many as there are headers, and each of its values comes from a
    field at the position of a header. *)
Theorem short_and_long_lines (hs : list jsstring) (line : jsstring) :
  (forall j k, hs !! j = Some k -> (length (lineFields line) <= j)%nat ->
     buildRecord hs line !! k
       = (if str_eqb k (js "__proto__") then None else Some (VStr [])) /\
     (forall v, buildRecord hs line !! k = Some v -> v = VStr [])) /\
  buildRecord hs line = recordOf hs (take (length hs) (lineFields line)) /\
  (forall k v, buildRecord hs line !! k = Some v ->
     exists j, (j < length hs)%nat /\ hs !! j = Some k /\
               v = fieldValue (default [] (lineFields line !! j))).
Proof.
  split; [|split].
  - intros j k Hj Hlen.
    assert (H : k <> js "__proto__" ->
                buildRecord hs line !! k = Some (VStr [])).
    { intros Hp. eapply buildRecord_past_end; eauto. }
    split.
    + unfold str_eqb. case_bool_decide as Hp; [|exact (H Hp)].
      destruct (buildRecord hs line !! k) as [v|] eqn:Hv; [|reflexivity].
      destruct (recordOf_lookup_inv _ _ _ _ Hv) as (_ & _ & Hp' & _).
      contradiction.
    + intros v Hv.
      destruct (recordOf_lookup_inv _ _ _ _ Hv) as (_ & _ & Hp & _).
      rewrite (H Hp) in Hv. congruence.
  - unfold buildRecord, recordOf. apply record_loop_ext.
    intros j Hj. symmetry. apply lookup_take_lt. simpl in Hj. lia.
  - intros k v (j & Hj & _ & ->)%recordOf_lookup_inv.
    exists j. split; [|auto]. apply lookup_lt_Some in Hj. exact Hj.
Qed.

Lemma short_and_long_lines_witness :
  buildRecord [js "a"; js "b"; js "c"] (js "1") !! js "c" = Some (VStr []) /\
  buildRecord [js "a"] (js "1,2,3") = {[ js "a" := VNum (number_of_Z 1) ]}.
Proof.
  split.
  - apply (proj1 (short_and_long_lines [js "a"; js "b"; js "c"] (js "1"))
             2%nat (js "c")); [reflexivity | simpl; lia].
  - rewrite (proj1 (proj2 (short_and_long_lines [js "a"] (js "1,2,3")))).
    vm_compute. reflexivity.
Defined.

(** ** Kinds of values *)

(** C10: on success every value of every record of [rows] is a number or a
    string, never null and never undefined, so a record is dropped exactly
    when all of its values are the empty string. *)
Theorem row_values_are_numbers_or_strings (text : jsstring) (t : ParsedTable) :
  parseCSVBuiltIn text = Ok t ->
  (forall r k v, r ∈ rows t -> r !! k = Some v ->
     v <> VNull /\ v <> VUndefined /\
     ((exists x, v = VNum x /\ is_nan x = false) \/ (exists s, v = VStr s))) /\
  exists dl,
    headersAndDataLines text = Ok (headers t, dl) /\
    forall line, line ∈ dl ->
      (keepRecord (buildRecord (headers t) line) = false <->
       allEmpty (buildRecord (headers t) line)) /\
      (buildRecord (headers t) line ∈ rows t <->
       ~ allEmpty (buildRecord (headers t) line)).
Proof.
  intros (dl & Hd & Hr)%parse_ok_inv. split.
  - intros r k v Hin Hkv. rewrite Hr in Hin.
    apply elem_of_buildRows in Hin as [_ (line & _ & ->)].
    apply recordOf_value_kind in Hkv as [(x & -> & Hx)|(s & ->)];
      (split; [discriminate|]); (split; [discriminate|]); eauto.
  - exists dl. split; [exact Hd|]. intros line Hl.
    split; [apply keepRecord_buildRecord|].
    rewrite Hr, elem_of_buildRows, <- keepRecord_buildRecord,
      not_false_iff_true.
    split; [tauto|]. intros Hk. split; [exact Hk|]. eauto.
Qed.

Lemma row_values_are_numbers_or_strings_witness :
  parseCSVBuiltIn (js "type,amount" ++ [LF] ++ js "PAYMENT,12" ++ [LF] ++ js ",")
    = Ok {| headers := [js "type"; js "amount"];
            rows := [ {[ js "type" := VStr (js "PAYMENT");
                         js "amount" := VNum (number_of_Z 12) ]} ] |} /\
  forall r k v,
    r ∈ [ ({[ js "type" := VStr (js "PAYMENT");
              js "amount" := VNum (number_of_Z 12) ]} : gmap (list N) value) ] ->
    r !! k = Some v ->
    v <> VNull /\ v <> VUndefined /\
    ((exists x, v = VNum x /\ is_nan x = false) \/ (exists s, v = VStr s)).
Proof.
  assert (H : parseCSVBuiltIn
                (js "type,amount" ++ [LF] ++ js "PAYMENT,12" ++ [LF] ++ js ",")
              = Ok {| headers := [js "type"; js "amount"];
                      rows := [ {[ js "type" := VStr (js "PAYMENT");
                                   js "amount" := VNum (number_of_Z 12) ]} ] |})
    by (vm_compute; reflexivity).
  split; [exact H|].
  exact (proj1 (row_values_are_numbers_or_strings _ _ H)).
Defined.

(** ** Required columns *)

Lemma arr_includes_iff (a : list jsstring) (x : jsstring) :
  arr_includes a x = true <-> x ∈ a.
Proof.
  unfold arr_includes. rewrite existsb_exists, list_elem_of_In. split.
  - intros (y & Hy & He). unfold str_eqb in He.
    apply bool_decide_eq_true in He. subst y. exact Hy.
  - intros Hx. exists x. split; [exact Hx|].
    unfold str_eqb. apply bool_decide_eq_true. reflexivity.
Qed.

Lemma elem_of_missingColumns (req hs : list jsstring) (c : jsstring) :
  c ∈ missingColumns req hs <-> c ∈ req /\ c ∉ hs.
Proof.
  unfold missingColumns.
  rewrite list_elem_of_In, filter_In, negb_true_iff, <- not_true_iff_false,
    arr_includes_iff, <- list_elem_of_In.
  reflexivity.
Qed.

Lemma builtInStage_missing (req : list jsstring) (text : jsstring)
    (st : BatchState) (t : ParsedTable) :
  parseCSVBuiltIn text = Ok t ->
  missingColumns req (headers t) <> [] ->
  builtInStage req text st =
    setPErr (missingColumnsMessage (missingColumns req (headers t)) (headers t))
      st.
Proof.
  intros Hp Hm. unfold builtInStage. rewrite Hp. cbv zeta.
  destruct (missingColumns req (headers t)); [contradiction|reflexivity].
Qed.

(** C9: when the headers returned by the parser lack one or more of the
    required columns, and PapaParse did not already accept the file,
    [handleFile] loads no rows and sets the error message
    [Missing columns: ... . Found: ...], which joins the required columns
    absent from the headers and then all the headers; headers [a], [b]
    against required [a], [b], [c] give [Missing columns: c. Found: a, b]. *)
Theorem missing_columns_reported
    (Papa_parse : jsstring -> result PapaResult) (file : File)
    (st : BatchState) (t : ParsedTable) :
  match Papa_parse (file_text file) with
  | Ok r => papaAccepted r = false
  | Throw _ => True
  end ->
  parseCSVBuiltIn (file_text file) = Ok t ->
  (exists c, c ∈ REQ_COLS /\ c ∉ headers t) ->
  let miss := missingColumns REQ_COLS (headers t) in
  let st' := handleFile Papa_parse (Some file) st in
  miss <> [] /\
  (forall c, c ∈ miss <-> c ∈ REQ_COLS /\ c ∉ headers t) /\
  parseErr st' =
    js "Missing columns: " ++ join (js ", ") miss ++ js ". Found: " ++
    join (js ", ") (headers t) /\
  st_rows st' = [] /\
  parseInfo st' = [] /\
  missingColumns [js "a"; js "b"; js "c"] [js "a"; js "b"] = [js "c"] /\
  missingColumnsMessage [js "c"] [js "a"; js "b"]
    = js "Missing columns: c. Found: a, b".
Proof.
  intros Hpapa Hparse (c & Hreq & Hnot). cbv zeta.
  assert (Hmiss : missingColumns REQ_COLS (headers t) <> []).
  { intros Hnil.
    assert (Hc : c ∈ missingColumns REQ_COLS (headers t))
      by (apply elem_of_missingColumns; auto).
    rewrite Hnil in Hc. inversion Hc. }
  assert (Hrun : handleFile Papa_parse (Some file) st =
                 setPErr (missingColumnsMessage
                            (missingColumns REQ_COLS (headers t)) (headers t))
                   (setFN (file_name file)
                      (setRows [] (setPInfo [] (setPErr [] st))))).
  { unfold handleFile. cbv zeta.
    destruct (Papa_parse (file_text file)) as [r|msg].
    - rewrite Hpapa. apply builtInStage_missing; assumption.
    - apply builtInStage_missing; assumption. }
  split; [exact Hmiss|]. split; [intros c'; apply elem_of_missingColumns|].
  rewrite Hrun. repeat split; reflexivity.
Qed.

Lemma missing_columns_reported_witness :
  let file := {| file_name := js "t.csv";
                 file_text := js "step,type" ++ [LF] ++ js "1,PAYMENT" |} in
  let st := {| st_rows := []; fileName := []; parseErr := [];
               parseInfo := [] |} in
  parseErr (handleFile (fun _ => Throw []) (Some file) st) =
    js "Missing columns: amount, oldbalanceOrg, newbalanceOrig, " ++
    js "oldbalanceDest, newbalanceDest. Found: step, type".
Proof.
  cbv zeta.
  pose (file := {| file_name := js "t.csv";
                   file_text := js "step,type" ++ [LF] ++ js "1,PAYMENT" |}).
  pose (t := {| headers := [js "step"; js "type"];
                rows := [ {[ js "step" := VNum (number_of_Z 1);
                             js "type" := VStr (js "PAYMENT") ]} ] |}).
  assert (Hparse : parseCSVBuiltIn (file_text file) = Ok t)
    by (vm_compute; reflexivity).
  assert (Hex : exists c, c ∈ REQ_COLS /\ c ∉ headers t).
  { exists (js "amount"). split.
    - apply arr_includes_iff. vm_compute. reflexivity.
    - intros Hin%arr_includes_iff. vm_compute in Hin. discriminate. }
  destruct (missing_columns_reported (fun _ => Throw []) file
              {| st_rows := []; fileName := []; parseErr := [];
                 parseInfo := [] |} t I Hparse Hex)
    as (_ & _ & Herr & _).
  fold file. rewrite Herr. vm_compute. reflexivity.
Defined.

(** ** Further facts about trimming and splitting *)

Lemma trimStart_keeps (s : jsstring) (c : N) :
  c ∈ s -> isWhiteSpace c = false -> c ∈ trimStart s.
Proof.
  intros Hin Hc. induction s as [|a t IH]; [inversion Hin|].
  simpl. destruct (isWhiteSpace a) eqn:Ha; [|exact Hin].
  apply elem_of_cons in Hin as [->|Hin]; [congruence|auto].
Qed.

Lemma trimStart_subset (s : jsstring) (c : N) : c ∈ trimStart s -> c ∈ s.
Proof.
  induction s as [|a t IH]; simpl; [auto|].
  destruct (isWhiteSpace a); [|auto].
  intros H. apply elem_of_cons. auto.
Qed.

Lemma elem_of_rev (s : jsstring) (c : N) : c ∈ rev s <-> c ∈ s.
Proof. rewrite !list_elem_of_In. symmetry. apply in_rev. Qed.

Lemma trim_keeps (s : jsstring) (c : N) :
  c ∈ s -> isWhiteSpace c = false -> c ∈ trim s.
Proof.
  intros Hin Hc. unfold trim, trimEnd.
  apply elem_of_rev, trimStart_keeps; [|exact Hc].
  apply elem_of_rev, trimStart_keeps; assumption.
Qed.

Lemma trim_subset (s : jsstring) (c : N) : c ∈ trim s -> c ∈ s.
Proof.
  unfold trim, trimEnd. intros H.
  apply trimStart_subset, elem_of_rev, trimStart_subset, elem_of_rev. exact H.
Qed.

Lemma cons_head_covers (a : N) (ls : list jsstring) :
  (exists l, l ∈ cons_head a ls /\ a ∈ l) /\
  (forall l, l ∈ ls -> exists l', l' ∈ cons_head a ls /\ forall c, c ∈ l -> c ∈ l').
Proof.
  destruct ls as [|l0 ls]; simpl.
  - split.
    + exists [a]. split; apply elem_of_cons; auto.
    + intros l Hl. inversion Hl.
  - split.
    + exists (a :: l0). split; apply elem_of_cons; auto.
    + intros l [->|Hl]%elem_of_cons.
      * exists (a :: l0). split; [apply elem_of_cons; auto|].
        intros c Hc. apply elem_of_cons. auto.
      * exists l. split; [apply elem_of_cons; auto|auto].
Qed.

Lemma split_lines_covers (n : nat) (s : jsstring) (c : N) :
  (length s <= n)%nat -> c ∈ s -> isWhiteSpace c = false ->
  exists l, l ∈ split_lines s /\ c ∈ l.
Proof.
  revert s. induction n as [|n IH]; intros s Hlen Hin Hc.
  { destruct s; [inversion Hin|simpl in Hlen; lia]. }
  destruct s as [|a t]; [inversion Hin|].
  simpl in Hlen.
  assert (Hkeep : exists l, l ∈ cons_head a (split_lines t) /\ c ∈ l).
  { apply elem_of_cons in Hin as [->|Hin].
    - apply cons_head_covers.
    - destruct (IH t ltac:(lia) Hin Hc) as (l & Hl & Hcl).
      destruct (proj2 (cons_head_covers a (split_lines t)) l Hl)
        as (l' & Hl' & Hsub).
      exists l'. auto. }
  cbn [split_lines]. destruct (N.eqb_spec a LF) as [->|Hlf].
  - apply elem_of_cons in Hin as [->|Hin]; [discriminate|].
    destruct (IH t ltac:(lia) Hin Hc) as (l & Hl & Hcl).
    exists l. split; [apply elem_of_cons; auto|exact Hcl].
  - destruct t as [|d t']; [exact Hkeep|].
    destruct ((a =? CR) && (d =? LF)) eqn:Hcrlf; [|exact Hkeep].
    apply andb_prop in Hcrlf as [->%N.eqb_eq ->%N.eqb_eq].
    apply elem_of_cons in Hin as [->|Hin]; [discriminate|].
    apply elem_of_cons in Hin as [->|Hin]; [discriminate|].
    simpl in Hlen.
    destruct (IH t' ltac:(lia) Hin Hc) as (l & Hl & Hcl).
    exists l. split; [apply elem_of_cons; auto|exact Hcl].
Qed.

Lemma forallb_false_witness (s : jsstring) :
  forallb isWhiteSpace s = false ->
  exists c, c ∈ s /\ isWhiteSpace c = false.
Proof.
  induction s as [|a t IH]; simpl; [discriminate|].
  destruct (isWhiteSpace a) eqn:Ha; simpl.
  - intros (c & Hc & Hw)%IH. exists c. split; [apply elem_of_cons; auto|auto].
  - intros _. exists a. split; [apply elem_of_cons; auto|auto].
Qed.

Lemma nonBlankLines_nonempty (text : jsstring) (c : N) :
  c ∈ text -> isWhiteSpace c = false -> nonBlankLines text <> [].
Proof.
  intros Hin Hc Hnil.
  destruct (split_lines_covers (length (trim text)) (trim text) c
              (Nat.le_refl _) (trim_keeps _ _ Hin Hc) Hc) as (l & Hl & Hcl).
  assert (Hf : l ∈ nonBlankLines text).
  { unfold nonBlankLines. apply list_elem_of_In, filter_In.
    split; [apply list_elem_of_In; exact Hl|].
    pose proof (trim_keeps _ _ Hcl Hc) as Ht.
    destruct (trim l); [inversion Ht|reflexivity]. }
  rewrite Hnil in Hf. inversion Hf.
Qed.

Lemma headersAndDataLines_ok (text l0 : jsstring) (rest : list jsstring) :
  nonBlankLines text = l0 :: rest ->
  headersAndDataLines text =
    Ok (if isQuotedRow (trim l0)
        then (map trim (split COMMA (stripLine l0)), map stripLine rest)
        else (map (fun h => replaceOuterQuotes (trim h)) (split COMMA (trim l0)),
              rest)).
Proof.
  intros Hl. unfold headersAndDataLines. rewrite Hl. cbv zeta.
  destruct (isQuotedRow (trim l0)); reflexivity.
Qed.

(** ** When the parser succeeds *)

(** The parser returns a table exactly when the text has a code unit that is
    not white space, and the only error it throws is [Empty file]. *)
Theorem parse_succeeds_iff_not_blank (text : jsstring) :
  ((exists t, parseCSVBuiltIn text = Ok t) <->
   (exists c, c ∈ text /\ isWhiteSpace c = false)) /\
  (forall m, parseCSVBuiltIn text = Throw m -> m = js "Empty file").
Proof.
  assert (Hcases : nonBlankLines text = [] \/
                   exists l0 rest, nonBlankLines text = l0 :: rest).
  { destruct (nonBlankLines text) as [|l0 rest]; eauto. }
  split; [split|].
  - intros [t Ht]. destruct (forallb isWhiteSpace text) eqn:Hws.
    + exfalso. unfold parseCSVBuiltIn, headersAndDataLines, nonBlankLines in Ht.
      rewrite (trim_whitespace text Hws) in Ht. discriminate.
    + apply forallb_false_witness. exact Hws.
  - intros (c & Hin & Hc).
    destruct Hcases as [Hnil|(l0 & rest & Hl)].
    + exfalso. exact (nonBlankLines_nonempty text c Hin Hc Hnil).
    + unfold parseCSVBuiltIn. rewrite (headersAndDataLines_ok _ _ _ Hl).
      destruct (isQuotedRow (trim l0)); eauto.
  - intros m. destruct Hcases as [Hnil|(l0 & rest & Hl)].
    + unfold parseCSVBuiltIn, headersAndDataLines. rewrite Hnil.
      intros [= <-]. reflexivity.
    + unfold parseCSVBuiltIn. rewrite (headersAndDataLines_ok _ _ _ Hl).
      destruct (isQuotedRow (trim l0)); discriminate.
Qed.

(** ** Number of headers *)

Lemma split_length (sep : N) (s : jsstring) :
  length (split sep s) = S (count_occ N.eq_dec s sep).
Proof.
  induction s as [|c t IH]; [reflexivity|].
  cbn [split count_occ]. destruct (N.eqb_spec c sep) as [->|Hne].
  - destruct (N.eq_dec sep sep); [|contradiction]. simpl. rewrite IH.
    reflexivity.
  - destruct (N.eq_dec c sep); [contradiction|].
    destruct (split sep t) as [|p ps]; [discriminate|]. exact IH.
Qed.

Lemma count_occ_trimStart (s : jsstring) (x : N) :
  isWhiteSpace x = false ->
  count_occ N.eq_dec (trimStart s) x = count_occ N.eq_dec s x.
Proof.
  intros Hx. induction s as [|a t IH]; [reflexivity|].
  simpl. destruct (isWhiteSpace a) eqn:Ha; [|reflexivity].
  destruct (N.eq_dec a x) as [->|_]; [congruence|exact IH].
Qed.

Lemma count_occ_trim (s : jsstring) (x : N) :
  isWhiteSpace x = false ->
  count_occ N.eq_dec (trim s) x = count_occ N.eq_dec s x.
Proof.
  intros Hx. unfold trim, trimEnd.
  rewrite count_occ_rev, count_occ_trimStart, count_occ_rev,
    count_occ_trimStart by exact Hx.
  reflexivity.
Qed.

Lemma outer_quotes_shape (t : jsstring) :
  startsWith t [QUOTE] = true -> endsWith t [QUOTE] = true ->
  t = [QUOTE] \/ t = quoted (between t).
Proof.
  intros Hs He. apply startsWith_quote in Hs as [k ->].
  apply endsWith_quote in He as [m Hm].
  destruct m as [|q m']; simpl in Hm.
  - left. injection Hm as ->. reflexivity.
  - right. injection Hm as <- ->.
    unfold quoted, between. cbn [tail app].
    rewrite removelast_last. reflexivity.
Qed.

Lemma count_occ_between (t : jsstring) (x : N) :
  x <> QUOTE ->
  startsWith t [QUOTE] = true -> endsWith t [QUOTE] = true ->
  count_occ N.eq_dec (between t) x = count_occ N.eq_dec t x.
Proof.
  intros Hx Hs He. destruct (outer_quotes_shape t Hs He) as [->|Hq].
  - change (between [QUOTE]) with (@nil N). cbn [count_occ].
    destruct (N.eq_dec QUOTE x); [congruence|reflexivity].
  - rewrite Hq at 2. unfold quoted. cbn [app count_occ].
    rewrite count_occ_app. cbn [count_occ].
    destruct (N.eq_dec QUOTE x); [congruence|lia].
Qed.

Lemma count_occ_stripLine (l : jsstring) :
  count_occ N.eq_dec (stripLine l) COMMA = count_occ N.eq_dec l COMMA.
Proof.
  unfold stripLine.
  destruct (startsWith (trim l) [QUOTE]) eqn:Hs;
    [destruct (endsWith (trim l) [QUOTE]) eqn:He|]; cbn [andb].
  - rewrite slice_1_m1, count_occ_between by (assumption || discriminate).
    apply count_occ_trim. reflexivity.
  - apply count_occ_trim. reflexivity.
  - apply count_occ_trim. reflexivity.
Qed.

(** In either format the number of headers is one more than the number of
    commas in the first non-blank line; in particular there is always at
    least one header. *)
Theorem header_count (text l0 : jsstring) (rest : list jsstring) :
  nonBlankLines text = l0 :: rest ->
  exists t, parseCSVBuiltIn text = Ok t /\
            length (headers t) = S (count_occ N.eq_dec l0 COMMA).
Proof.
  intros Hl. unfold parseCSVBuiltIn.
  rewrite (headersAndDataLines_ok _ _ _ Hl).
  destruct (isQuotedRow (trim l0)); eexists; (split; [reflexivity|]);
    cbn [headers]; rewrite length_map, split_length.
  - rewrite count_occ_stripLine. reflexivity.
  - rewrite count_occ_trim by reflexivity. reflexivity.
Qed.

Lemma header_count_witness :
  exists t,
    parseCSVBuiltIn (quoted (js "step, type ,amount") ++ [LF] ++ js "1,2,3")
      = Ok t /\
    length (headers t) = 3%nat.
Proof.
  apply (header_count
           (quoted (js "step, type ,amount") ++ [LF] ++ js "1,2,3")
           (quoted (js "step, type ,amount")) [js "1,2,3"]).
  reflexivity.
Defined.

(** ** Keys of a row *)

Lemma record_loop_is_Some (vals hs : list jsstring) (i : nat)
    (obj : gmap (list N) value) (k : jsstring) :
  (k ∈ hs /\ k <> js "__proto__") \/ is_Some (obj !! k) ->
  is_Some (forEach (recordStep vals) hs i obj !! k).
Proof.
  revert i obj. induction hs as [|h hs IH]; intros i obj H; simpl.
  - destruct H as [[Hin _]|H]; [inversion Hin|exact H].
  - apply IH. destruct H as [[Hin Hp]|H].
    + apply elem_of_cons in Hin as [->|Hin]; [|left; auto].
      right. unfold recordStep. rewrite obj_set_lookup_eq by exact Hp. eauto.
    + destruct (decide (h = k)) as [->|Hne].
      * right. unfold recordStep, obj_set, str_eqb.
        case_bool_decide; [exact H|]. rewrite lookup_insert_eq. eauto.
      * right. unfold recordStep. rewrite obj_set_lookup_ne by exact Hne.
        exact H.
Qed.

Lemma dom_recordOf (hs vals : list jsstring) :
  dom (recordOf hs vals) = list_to_set hs ∖ {[ js "__proto__" ]}.
Proof.
  apply set_eq. intros k.
  rewrite elem_of_dom, elem_of_difference, elem_of_list_to_set,
    not_elem_of_singleton.
  split.
  - intros [v (j & Hj & Hp & _)%recordOf_lookup_inv].
    split; [|exact Hp]. eapply list_elem_of_lookup_2. exact Hj.
  - intros [Hin Hp]. apply record_loop_is_Some. auto.
Qed.

(** Every row of the table has the same keys: the header names, except that
    a header named [__proto__] is never a key. *)
Theorem row_keys (text : jsstring) (t : ParsedTable) :
  parseCSVBuiltIn text = Ok t ->
  forall r, r ∈ rows t ->
    dom r = list_to_set (headers t) ∖ {[ js "__proto__" ]}.
Proof.
  intros (dl & _ & Hr)%parse_ok_inv r Hin. rewrite Hr in Hin.
  apply elem_of_buildRows in Hin as [_ (line & _ & ->)].
  apply dom_recordOf.
Qed.

Lemma row_keys_witness :
  dom ({[ js "a" := VNum (number_of_Z 1) ]} : gmap (list N) value)
  = list_to_set [js "a"; js "__proto__"; js "a"] ∖ {[ js "__proto__" ]}.
Proof.
  assert (H : parseCSVBuiltIn (js "a,__proto__,a" ++ [LF] ++ js "0,x,1")
              = Ok {| headers := [js "a"; js "__proto__"; js "a"];
                      rows := [ {[ js "a" := VNum (number_of_Z 1) ]} ] |})
    by (vm_compute; reflexivity).
  apply (row_keys _ _ H). apply elem_of_cons. left. reflexivity.
Defined.

(** ** Number of rows *)

Lemma filter_sublist {A : Type} (p : A -> bool) (l : list A) :
  List.filter p l `sublist_of` l.
Proof.
  induction l as [|a l IH]; simpl; [constructor|].
  destruct (p a); [apply sublist_skip|apply sublist_cons]; exact IH.
Qed.

(** The rows are built from the data lines in their order, some of them left
    out, so there are fewer rows than non-blank lines: a text of at most 501
    non-blank lines gives at most 500 rows. *)
Theorem row_count (text : jsstring) (t : ParsedTable) :
  parseCSVBuiltIn text = Ok t ->
  (exists dl,
     headersAndDataLines text = Ok (headers t, dl) /\
     rows t `sublist_of` map (buildRecord (headers t)) dl) /\
  (length (rows t) < length (nonBlankLines text))%nat.
Proof.
  intros (dl & Hd & Hr)%parse_ok_inv.
  assert (Hs : rows t `sublist_of` map (buildRecord (headers t)) dl).
  { rewrite Hr. apply filter_sublist. }
  split; [eauto|].
  apply sublist_length in Hs. rewrite length_map in Hs.
  rewrite (headersAndDataLines_length _ _ _ Hd), length_drop in Hs.
  unfold headersAndDataLines in Hd.
  destruct (nonBlankLines text); [discriminate|]. simpl in *. lia.
Qed.

Lemma row_count_witness :
  (length [ ({[ js "a" := VNum (number_of_Z 2) ]} : gmap (list N) value) ]
   < length (nonBlankLines (js "a" ++ [LF; LF] ++ js "," ++ [LF] ++ js "2")))%nat.
Proof.
  assert (H : parseCSVBuiltIn (js "a" ++ [LF; LF] ++ js "," ++ [LF] ++ js "2")
              = Ok {| headers := [js "a"];
                      rows := [ {[ js "a" := VNum (number_of_Z 2) ]} ] |})
    by (vm_compute; reflexivity).
  exact (proj2 (row_count _ _ H)).
Defined.

(** ** Wrapping the lines in quotes *)

Lemma trimStart_snoc (p : jsstring) (c : N) :
  trimStart (p ++ [c]) =
    match trimStart p with
    | [] => trimStart [c]
    | r => r ++ [c]
    end.
Proof.
  induction p as [|a t IH]; [reflexivity|].
  cbn [app trimStart]. destruct (isWhiteSpace a); [exact IH|reflexivity].
Qed.

Lemma trimEnd_snoc_ws (s : jsstring) (c : N) :
  isWhiteSpace c = true -> trimEnd (s ++ [c]) = trimEnd s.
Proof.
  intros Hc. unfold trimEnd. rewrite rev_app_distr. cbn [rev app trimStart].
  rewrite Hc. reflexivity.
Qed.

Lemma trimEnd_snoc_keep (s : jsstring) (c : N) :
  isWhiteSpace c = false -> trimEnd (s ++ [c]) = s ++ [c].
Proof.
  intros Hc. unfold trimEnd. rewrite rev_app_distr. cbn [rev app trimStart].
  rewrite Hc. cbn [rev]. rewrite rev_involutive. reflexivity.
Qed.

Lemma trim_cons_ws (p : jsstring) (c : N) :
  isWhiteSpace c = true -> trim (c :: p) = trim p.
Proof. intros Hc. unfold trim. cbn [trimStart]. rewrite Hc. reflexivity. Qed.

Lemma trim_snoc_ws (p : jsstring) (c : N) :
  isWhiteSpace c = true -> trim (p ++ [c]) = trim p.
Proof.
  intros Hc. unfold trim. rewrite trimStart_snoc.
  destruct (trimStart p) as [|a r] eqn:Hp.
  - cbn [trimStart]. rewrite Hc. reflexivity.
  - change (a :: r ++ [c]) with ((a :: r) ++ [c]).
    apply trimEnd_snoc_ws. exact Hc.
Qed.

Lemma split_snoc (sep c : N) (s : jsstring) :
  c <> sep ->
  exists init lastp,
    split sep s = init ++ [lastp] /\
    split sep (s ++ [c]) = init ++ [lastp ++ [c]].
Proof.
  intros Hc. induction s as [|a t (init & lastp & Ht & Htc)].
  - exists [], []. cbn [split app].
    destruct (N.eqb_spec c sep); [contradiction|]. split; reflexivity.
  - cbn [split app]. rewrite Ht, Htc. destruct (a =? sep).
    + exists ([] :: init), lastp. split; reflexivity.
    + destruct init as [|i0 init'].
      * exists [], (a :: lastp). split; reflexivity.
      * exists ((a :: i0) :: init'), lastp. split; reflexivity.
Qed.

Lemma map_trim_split_trimStart (s : jsstring) :
  map trim (split COMMA (trimStart s)) = map trim (split COMMA s).
Proof.
  induction s as [|a t IH]; [reflexivity|].
  cbn [trimStart]. destruct (isWhiteSpace a) eqn:Ha; [|reflexivity].
  rewrite IH. cbn [split].
  destruct (N.eqb_spec a COMMA) as [->|_]; [discriminate|].
  pose proof (split_length COMMA t) as Hlen.
  destruct (split COMMA t) as [|p ps]; [discriminate|].
  cbn [cons_head map]. rewrite trim_cons_ws by exact Ha. reflexivity.
Qed.

Lemma map_trim_split_trimEnd (s : jsstring) :
  map trim (split COMMA (trimEnd s)) = map trim (split COMMA s).
Proof.
  induction s as [|c s IH] using rev_ind; [reflexivity|].
  destruct (isWhiteSpace c) eqn:Hc.
  - rewrite trimEnd_snoc_ws, IH by exact Hc.
    assert (Hne : c <> COMMA) by (intros ->; discriminate).
    destruct (split_snoc COMMA c s Hne) as (init & lastp & -> & ->).
    rewrite !map_app. cbn [map]. rewrite trim_snoc_ws by exact Hc.
    reflexivity.
  - rewrite trimEnd_snoc_keep by exact Hc. reflexivity.
Qed.

Lemma map_trim_split_trim (s : jsstring) :
  map trim (split COMMA (trim s)) = map trim (split COMMA s).
Proof.
  unfold trim at 2. rewrite map_trim_split_trimEnd.
  apply map_trim_split_trimStart.
Qed.

Lemma split_piece_subset (sep : N) (s p : jsstring) (c : N) :
  p ∈ split sep s -> c ∈ p -> c ∈ s.
Proof.
  revert p. induction s as [|a t IH]; intros p; cbn [split].
  - intros [->|Hp]%elem_of_cons Hc; [exact Hc|inversion Hp].
  - destruct (a =? sep).
    + intros [->|Hp]%elem_of_cons Hc; [inversion Hc|].
      apply elem_of_cons. right. eapply IH; eauto.
    + destruct (split sep t) as [|p0 ps]; cbn [cons_head].
      * intros [->|Hp]%elem_of_cons Hc; [|inversion Hp].
        apply elem_of_cons in Hc as [->|Hc]; [|inversion Hc].
        apply elem_of_cons. auto.
      * intros [->|Hp]%elem_of_cons Hc.
        -- apply elem_of_cons in Hc as [->|Hc]; apply elem_of_cons; [auto|].
           right. apply (IH p0); [apply elem_of_cons; auto|exact Hc].
        -- apply elem_of_cons. right. apply (IH p); [|exact Hc].
           apply elem_of_cons. auto.
Qed.

Lemma replaceOuterQuotes_quote_free (s : jsstring) :
  QUOTE ∉ s -> replaceOuterQuotes s = s.
Proof.
  intros Hq. rewrite replaceOuterQuotes_no_prefix.
  - apply dropEndQuote_id. intros [k ->]. apply Hq.
    apply elem_of_app. right. apply elem_of_cons. auto.
  - intros [k ->]. apply Hq. apply elem_of_cons. auto.
Qed.

Lemma trim_quoted (b : jsstring) : trim (quoted b) = quoted b.
Proof.
  unfold trim, quoted. cbn [app trimStart].
  change (isWhiteSpace QUOTE) with false. cbv iota.
  change (QUOTE :: b ++ [QUOTE]) with ((QUOTE :: b) ++ [QUOTE]).
  apply trimEnd_snoc_keep. reflexivity.
Qed.

Lemma between_quoted (b : jsstring) : between (quoted b) = b.
Proof. unfold between, quoted. cbn [app tail]. apply removelast_last. Qed.

Lemma quoted_starts_ends (b : jsstring) :
  startsWith (quoted b) [QUOTE] = true /\ endsWith (quoted b) [QUOTE] = true.
Proof.
  split.
  - apply startsWith_quote. exists (b ++ [QUOTE]). reflexivity.
  - apply endsWith_quote. exists (QUOTE :: b). reflexivity.
Qed.

Lemma stripLine_quoted (b : jsstring) : stripLine (quoted b) = b.
Proof.
  unfold stripLine. rewrite trim_quoted.
  destruct (quoted_starts_ends b) as [-> ->]. cbn [andb].
  rewrite slice_1_m1. apply between_quoted.
Qed.

(** Wrapping every non-blank line in one pair of double quotes does not
    change the table, as long as the first line holds no double quote of
    its own: the quoted-row branch undoes the wrapping. *)
Theorem quoting_is_transparent (tq tp b0 : jsstring) (rest : list jsstring) :
  nonBlankLines tq = map quoted (b0 :: rest) ->
  nonBlankLines tp = b0 :: rest ->
  QUOTE ∉ b0 ->
  isQuotedRow (trim (quoted b0)) = true /\
  isQuotedRow (trim b0) = false /\
  parseCSVBuiltIn tq = parseCSVBuiltIn tp.
Proof.
  intros Hq Hp Hfree.
  assert (Hyes : isQuotedRow (trim (quoted b0)) = true).
  { rewrite trim_quoted. unfold isQuotedRow.
    destruct (quoted_starts_ends b0) as [-> ->]. cbn [andb].
    rewrite slice_1_m1, between_quoted. apply negb_true_iff.
    apply not_true_iff_false. rewrite includes_unit. exact Hfree. }
  assert (Hno : isQuotedRow (trim b0) = false).
  { unfold isQuotedRow.
    destruct (startsWith (trim b0) [QUOTE]) eqn:Hs; [|reflexivity].
    exfalso. apply startsWith_quote in Hs as [k Hk]. apply Hfree.
    apply trim_subset. rewrite Hk. apply elem_of_cons. auto. }
  split; [exact Hyes|]. split; [exact Hno|].
  unfold parseCSVBuiltIn. cbn [map] in Hq.
  rewrite (headersAndDataLines_ok _ _ _ Hq), (headersAndDataLines_ok _ _ _ Hp).
  rewrite Hyes, Hno, stripLine_quoted, map_map.
  rewrite (map_ext _ (fun b => b) stripLine_quoted), map_id.
  assert (Hh : map (fun h => replaceOuterQuotes (trim h)) (split COMMA (trim b0))
               = map trim (split COMMA b0)).
  { rewrite <- map_trim_split_trim. apply map_ext_in. intros p Hin.
    apply replaceOuterQuotes_quote_free. intros Hc. apply Hfree.
    apply trim_subset. eapply split_piece_subset.
    - apply list_elem_of_In. exact Hin.
    - apply trim_subset. exact Hc. }
  rewrite Hh. reflexivity.
Qed.

Lemma quoting_is_transparent_witness :
  parseCSVBuiltIn
    (quoted (js "type, amount ") ++ [CR; LF] ++ quoted (js "PAYMENT,12"))
  = parseCSVBuiltIn (js "type, amount " ++ [CR; LF] ++ js "PAYMENT,12").
Proof.
  apply (quoting_is_transparent
           (quoted (js "type, amount ") ++ [CR; LF] ++ quoted (js "PAYMENT,12"))
           (js "type, amount " ++ [CR; LF] ++ js "PAYMENT,12")
           (js "type, amount ") [js "PAYMENT,12"]).
  - reflexivity.
  - reflexivity.
  - intros Hin. apply list_elem_of_In in Hin. vm_compute in Hin.
    repeat (destruct Hin as [Hin|Hin]; [discriminate|]). exact Hin.
Defined.

(** ** Blank fields *)

Lemma split_no_sep (sep : N) (s : jsstring) :
  sep ∉ s -> split sep s = [s].
Proof.
  induction s as [|a t IH]; [reflexivity|].
  intros [Ha Ht]%not_elem_of_cons. cbn [split].
  destruct (N.eqb_spec a sep) as [->|_]; [contradiction|].
  rewrite (IH Ht). reflexivity.
Qed.




(** ** Outcome of an upload *)

Lemma builtInStage_outcome (req : list jsstring) (text fn : jsstring) :
  let st' := builtInStage req text
               {| st_rows := []; fileName := fn; parseErr := [];
                  parseInfo := [] |} in
  fileName st' = fn /\
  (st_rows st' = [] /\ parseErr st' <> [] /\ parseInfo st' = [] \/
   exists t, parseCSVBuiltIn text = Ok t /\
             missingColumns req (headers t) = [] /\
             (1 <= length (rows t) <= 500)%nat /\
             st_rows st' = rows t /\ parseErr st' = [] /\ parseInfo st' <> []).
Proof.
  cbv zeta. unfold builtInStage.
  destruct (parseCSVBuiltIn text) as [t|msg]; cbv zeta.
  - destruct (0 <? length (missingColumns req (headers t)))%nat eqn:Hm.
    2: apply Nat.ltb_ge, Nat.le_0_r, length_zero_iff_nil in Hm.
    2: destruct (500 <? length (rows t))%nat eqn:H500.
    + split; [reflexivity|]. left. repeat split; discriminate.
    + split; [reflexivity|]. left. repeat split; discriminate.
    + destruct (length (rows t) =? 0)%nat eqn:H0.
      * split; [reflexivity|]. left. repeat split; discriminate.
      * split; [reflexivity|]. right. exists t.
        apply Nat.ltb_ge in H500. apply Nat.eqb_neq in H0.
        repeat split; try reflexivity; try lia; try assumption. discriminate.
  - split; [reflexivity|]. left. repeat split; discriminate.
Qed.




(** ** What the built-in parser loads *)

Lemma handleFile_builtin (Papa_parse : jsstring -> result PapaResult)
    (file : File) (st : BatchState) :
  match Papa_parse (file_text file) with
  | Ok r => papaAccepted r = false
  | Throw _ => True
  end ->
  handleFile Papa_parse (Some file) st =
    builtInStage REQ_COLS (file_text file)
      {| st_rows := []; fileName := file_name file; parseErr := [];
         parseInfo := [] |}.
Proof.
  intros Hpapa. unfold handleFile. cbv zeta.
  destruct (Papa_parse (file_text file)) as [r|msg].
  - rewrite Hpapa. reflexivity.
  - reflexivity.
Qed.



(** Every row that the built-in parser loads into the page has a value, a
    number or a string, under each of the seven required columns. *)
Theorem loaded_rows_have_required_columns
    (Papa_parse : jsstring -> result PapaResult) (file : File)
    (st : BatchState) :
  match Papa_parse (file_text file) with
  | Ok r => papaAccepted r = false
  | Throw _ => True
  end ->
  forall r c,
    r ∈ st_rows (handleFile Papa_parse (Some file) st) -> c ∈ REQ_COLS ->
    exists v, r !! c = Some v /\
      ((exists x, v = VNum x /\ is_nan x = false) \/ (exists s, v = VStr s)).
Proof.
  intros Hpapa r c Hr Hc. rewrite (handleFile_builtin _ _ _ Hpapa) in Hr.
  destruct (builtInStage_outcome REQ_COLS (file_text file) (file_name file))
    as [_ [(Hnil & _)|(t & Hp & Hm & _ & Hrows & _)]]; cbv zeta in *.
  - rewrite Hnil in Hr. inversion Hr.
  - rewrite Hrows in Hr.
    apply parse_ok_inv in Hp as (dl & _ & Hbuild). rewrite Hbuild in Hr.
    apply elem_of_buildRows in Hr as [_ (line & _ & ->)].
    assert (Hin : c ∈ headers t).
    { destruct (decide (c ∈ headers t)) as [|Hn]; [assumption|].
      assert (Hmc : c ∈ missingColumns REQ_COLS (headers t))
        by (apply elem_of_missingColumns; auto).
      rewrite Hm in Hmc. inversion Hmc. }
    assert (Hp : c <> js "__proto__").
    { intros ->. apply list_elem_of_In in Hc. vm_compute in Hc.
      repeat (destruct Hc as [Hc|Hc]; [discriminate|]). exact Hc. }
    destruct (record_loop_is_Some (lineFields line) (headers t) 0 ∅ c
                (or_introl (conj Hin Hp))) as [v Hv].
    exists v. split; [exact Hv|].
    apply (recordOf_value_kind (headers t) (lineFields line) c v). exact Hv.
Qed.

Lemma loaded_rows_have_required_columns_witness :
  let file := {| file_name := js "t.csv";
                 file_text := quoted (js "step,type,amount,oldbalanceOrg," ++
                                      js "newbalanceOrig,oldbalanceDest," ++
                                      js "newbalanceDest") ++ [LF] ++
                              quoted (js "1,PAYMENT,9839.64,170136,160296.36,0,0")
              |} in
  let st := {| st_rows := []; fileName := []; parseErr := [];
               parseInfo := [] |} in
  length (st_rows (handleFile (fun _ => Throw []) (Some file) st)) = 1%nat /\
  forall r c,
    r ∈ st_rows (handleFile (fun _ => Throw []) (Some file) st) ->
    c ∈ REQ_COLS ->
    exists v, r !! c = Some v /\
      ((exists x, v = VNum x /\ is_nan x = false) \/ (exists s, v = VStr s)).
Proof.
  cbv zeta. split; [vm_compute; reflexivity|].
  apply (loaded_rows_have_required_columns (fun _ => Throw [])). exact I.
Defined.

(** ** The predict form and the parser *)

Lemma is_nan_true (x : number) : is_nan x = true -> x = S754_nan.
Proof. destruct x; simpl; congruence. Qed.

Lemma trimStart_head (s t : jsstring) (a : N) :
  trimStart s = a :: t -> isWhiteSpace a = false.
Proof.
  induction s as [|c s IH]; cbn [trimStart]; [discriminate|].
  destruct (isWhiteSpace c) eqn:Hc; [exact IH|].
  intros [= <- _]. exact Hc.
Qed.

Lemma trimStart_idem (s : jsstring) : trimStart (trimStart s) = trimStart s.
Proof.
  destruct (trimStart s) as [|a t] eqn:Hs; [reflexivity|].
  cbn [trimStart]. rewrite (trimStart_head s t a Hs). reflexivity.
Qed.

Lemma trimEnd_cons_keep (a : N) (t : jsstring) :
  isWhiteSpace a = false -> trimEnd (a :: t) = a :: trimEnd t.
Proof.
  intros Ha. induction t as [|c t IH] using rev_ind.
  - unfold trimEnd. cbn [rev app trimStart]. rewrite Ha. reflexivity.
  - change (a :: t ++ [c]) with ((a :: t) ++ [c]).
    destruct (isWhiteSpace c) eqn:Hc.
    + rewrite !trimEnd_snoc_ws by exact Hc. exact IH.
    + rewrite !trimEnd_snoc_keep by exact Hc. reflexivity.
Qed.

Lemma trim_idem (s : jsstring) : trim (trim s) = trim s.
Proof.
  unfold trim.
  assert (Hstart : trimStart (trimEnd (trimStart s)) = trimEnd (trimStart s)).
  { destruct (trimStart s) as [|a t] eqn:Hs; [reflexivity|].
    pose proof (trimStart_head s t a Hs) as Ha.
    rewrite (trimEnd_cons_keep a t Ha). cbn [trimStart]. rewrite Ha.
    reflexivity. }
  rewrite Hstart. unfold trimEnd. rewrite rev_involutive, trimStart_idem.
  reflexivity.
Qed.

Lemma StringToNumber_trim (s : jsstring) :
  StringToNumber (trim s) = StringToNumber s.
Proof. unfold StringToNumber. rewrite trim_idem. reflexivity. Qed.

(** The predict form against the CSV parser, for a field other than [type]
    and an input with no comma and no double quote, taken as a one-field
    data line under the header of that name.  The parser stores the typed
    value of the trimmed input.  An empty input is the empty string in
    both.  An input that is not blank and is numeric is the same number in
    both.  An input of white space only is the number 0 in the form and the
    empty string in the parser.  An input that is not numeric is [NaN] in
    the form and the trimmed text in the parser. *)
Theorem form_typing (name input : jsstring) (p : gmap (list N) value) :
  name <> js "type" -> name <> js "__proto__" ->
  COMMA ∉ input -> QUOTE ∉ input ->
  let form := onChange name input p !! name in
  let csv := buildRecord [name] input !! name in
  csv = Some (fieldValue (trim input)) /\
  (input = [] -> form = Some (VStr []) /\ csv = Some (VStr [])) /\
  (trim input <> [] -> isNaN input = false ->
     form = Some (VNum (Number input)) /\ csv = form) /\
  (input <> [] -> trim input = [] ->
     form = Some (VNum (S754_zero false)) /\ csv = Some (VStr [])) /\
  (isNaN input = true ->
     form = Some (VNum S754_nan) /\ csv = Some (VStr (trim input))).
Proof.
  intros Htype Hproto Hcomma Hquote. cbv zeta.
  assert (Hcsv : buildRecord [name] input !! name
                 = Some (fieldValue (trim input))).
  { unfold buildRecord, lineFields. rewrite (split_no_sep COMMA input Hcomma).
    cbn [map]. rewrite replaceOuterQuotes_quote_free
      by (intros Hq; apply Hquote, trim_subset; exact Hq).
    unfold recordOf. cbn [forEach]. unfold recordStep. cbv zeta.
    change (default [] ([trim input] !! 0%nat)) with (trim input).
    apply obj_set_lookup_eq. exact Hproto. }
  assert (Hform : onChange name input p !! name
                  = Some (if str_eqb input [] then VStr []
                          else VNum (Number input))).
  { unfold onChange. rewrite lookup_insert_eq. unfold str_eqb at 1.
    case_bool_decide; [contradiction|reflexivity]. }
  assert (Hnum : isNaN (trim input) = isNaN input /\
                 Number (trim input) = Number input).
  { unfold isNaN, Number. rewrite StringToNumber_trim. auto. }
  destruct Hnum as [HisNaN HNumber].
  rewrite Hcsv, Hform. split; [reflexivity|]. split; [|split; [|split]].
  - intros ->. split; reflexivity.
  - intros Hne Hnan. unfold str_eqb.
    case_bool_decide as He; [subst input; contradiction|].
    split; [reflexivity|]. unfold fieldValue, str_eqb.
    case_bool_decide; [contradiction|]. rewrite HisNaN, Hnan, HNumber.
    reflexivity.
  - intros Hne Hblank. unfold str_eqb.
    case_bool_decide; [contradiction|]. rewrite Hblank. split; [|reflexivity].
    unfold Number, StringToNumber. rewrite Hblank. reflexivity.
  - intros Hnan.
    assert (Hne : input <> []) by (intros ->; vm_compute in Hnan; discriminate).
    assert (Htrim : trim input <> []).
    { intros Hblank. unfold isNaN, StringToNumber in Hnan.
      rewrite Hblank in Hnan. discriminate. }
    unfold str_eqb. case_bool_decide; [contradiction|]. split.
    + unfold Number. rewrite (is_nan_true _ Hnan). reflexivity.
    + unfold fieldValue, str_eqb. case_bool_decide; [contradiction|].
      rewrite HisNaN, Hnan. reflexivity.
Qed.

Lemma form_typing_witness :
  onChange (js "amount") (js " 9839.64 ") ∅ !! js "amount"
    = Some (VNum (Number (js " 9839.64 "))) /\
  buildRecord [js "amount"] (js " 9839.64 ") !! js "amount"
    = onChange (js "amount") (js " 9839.64 ") ∅ !! js "amount" /\
  onChange (js "amount") (js " ") ∅ !! js "amount"
    = Some (VNum (S754_zero false)) /\
  buildRecord [js "amount"] (js " ") !! js "amount" = Some (VStr []).
Proof.
  assert (Hfree : forall s : jsstring,
            forallb (fun c => negb (c =? COMMA) && negb (c =? QUOTE)) s = true ->
            (COMMA ∉ s) /\ (QUOTE ∉ s)).
  { intros s Hs. rewrite forallb_forall in Hs.
    split; intros Hin; apply list_elem_of_In, Hs in Hin; discriminate. }
  destruct (Hfree (js " 9839.64 ") eq_refl) as [Hc1 Hq1].
  destruct (Hfree (js " ") eq_refl) as [Hc2 Hq2].
  assert (Hn1 : js "amount" <> js "type") by discriminate.
  assert (Hn2 : js "amount" <> js "__proto__") by discriminate.
  destruct (form_typing (js "amount") (js " 9839.64 ") ∅ Hn1 Hn2 Hc1 Hq1)
    as (_ & _ & Hnum & _).
  destruct (form_typing (js "amount") (js " ") ∅ Hn1 Hn2 Hc2 Hq2)
    as (_ & _ & _ & Hblank & _).
  destruct Hnum as [Hf Hcsv]; [discriminate | reflexivity |].
  destruct Hblank as [Hf0 Hcsv0]; [discriminate | reflexivity |].
  repeat split; assumption.
Defined.

(** ** The dashboard counts *)

Lemma filter_split_length {A : Type} (p q : A -> bool) (l : list A) :
  (length (List.filter (fun x => p x && q x) l) +
   length (List.filter (fun x => p x && negb (q x)) l))%nat
  = length (List.filter p l).
Proof.
  induction l as [|a l IH]; [reflexivity|].
  cbn [List.filter]. destruct (p a), (q a); cbn [andb negb length]; lia.
Qed.

Lemma filter_length_le {A : Type} (p : A -> bool) (l : list A) :
  (length (List.filter p l) <= length l)%nat.
Proof.
  induction l as [|a l IH]; [reflexivity|].
  cbn [List.filter]. destruct (p a); cbn [length]; lia.
Qed.

Lemma filter_complement_length {A : Type} (q : A -> bool) (l : list A) :
  (length (List.filter q l) + length (List.filter (fun x => negb (q x)) l))%nat
  = length l.
Proof.
  induction l as [|a l IH]; [reflexivity|].
  cbn [List.filter]. destruct (q a); cbn [negb length]; lia.
Qed.

(** The number of legitimate entries, computed as a difference, is the
    number of history entries whose [is_fraud] is not truthy; it is never
    negative, and the two counts add up to the total. *)
Theorem legit_count_counts (history : list (gmap (list N) value)) :
  legitCount history
    = Z.of_nat (length (List.filter (fun h => negb (is_fraud h)) history)) /\
  (0 <= legitCount history)%Z /\
  (Z.of_nat (fraudCount history) + legitCount history
   = Z.of_nat (total history))%Z.
Proof.
  unfold legitCount, fraudCount, total.
  pose proof (filter_complement_length is_fraud history) as H. lia.
Qed.

Lemma bar_total (history : list (gmap (list N) value)) (type : jsstring) :
  (fraud (typeBar history type) + legit (typeBar history type))%nat
  = length (List.filter
              (fun h => strict_eq_str (get h (js "type")) type) history).
Proof. unfold typeBar. cbn [fraud legit]. apply filter_split_length. Qed.

Lemma fold_max_bounds (l : list nat) :
  (1 <= fold_right Nat.max 1 l)%nat /\
  (forall x, x ∈ l -> x <= fold_right Nat.max 1 l)%nat /\
  (forall b, (1 <= b)%nat -> (forall x, x ∈ l -> x <= b)%nat ->
             (fold_right Nat.max 1 l <= b)%nat).
Proof.
  induction l as [|a l (IH1 & IH2 & IH3)]; cbn [fold_right].
  - split; [lia|]. split; [intros x Hx; inversion Hx|]. intros b Hb _. exact Hb.
  - split; [lia|]. split.
    + intros x [->|Hx]%elem_of_cons; [lia|]. specialize (IH2 x Hx). lia.
    + intros b Hb Hall.
      assert (a <= b)%nat by (apply Hall, elem_of_cons; auto).
      assert (fold_right Nat.max 1 l <= b)%nat.
      { apply IH3; [exact Hb|]. intros x Hx. apply Hall, elem_of_cons. auto. }
      lia.
Qed.

Lemma elem_of_byType (history : list (gmap (list N) value)) (d : TypeBar) :
  d ∈ byType history <->
  (exists type, type ∈ DASH_TYPES /\ d = typeBar history type) /\
  (1 <= fraud d + legit d)%nat.
Proof.
  unfold byType. rewrite list_elem_of_In, filter_In, in_map_iff, Nat.ltb_lt.
  split.
  - intros [(type & <- & Hin) Hpos]. split; [|lia].
    exists type. rewrite list_elem_of_In. auto.
  - intros [(type & Hin & ->) Hpos]. split; [|lia].
    exists type. rewrite <- list_elem_of_In. auto.
Qed.

(** Scale of the bar chart: every bar group shown is one of the five
    transaction types and stands for at least one entry; [maxBar] is at
    least 1, at least the size of every group, and at most the size of the
    history (or 1), so no bar is taller than the full height. *)
Theorem bar_chart_scale (history : list (gmap (list N) value)) :
  (1 <= maxBar history <= Nat.max 1 (total history))%nat /\
  forall d, d ∈ byType history ->
    bar_type d ∈ DASH_TYPES /\
    (1 <= fraud d + legit d)%nat /\
    (fraud d <= maxBar history)%nat /\
    (legit d <= maxBar history)%nat /\
    (fraud d + legit d <= maxBar history)%nat.
Proof.
  unfold maxBar.
  destruct (fold_max_bounds
              (map (fun d => (fraud d + legit d)%nat) (byType history)))
    as (Hone & Hge & Hle).
  split.
  - split; [exact Hone|]. apply Hle; [lia|].
    intros x Hx. apply list_elem_of_In, in_map_iff in Hx as (d & <- & Hd).
    apply list_elem_of_In, elem_of_byType in Hd as [(type & _ & ->) _].
    rewrite bar_total. unfold total.
    pose proof (filter_length_le
                  (fun h => strict_eq_str (get h (js "type")) type) history).
    lia.
  - intros d Hd.
    assert (Hsum : (fraud d + legit d <=
                    fold_right Nat.max 1
                      (map (fun d => (fraud d + legit d)%nat) (byType history)))%nat).
    { apply Hge. apply list_elem_of_In, in_map_iff.
      exists d. split; [reflexivity|]. apply list_elem_of_In. exact Hd. }
    apply elem_of_byType in Hd as [(type & Hin & ->) Hpos].
    split; [exact Hin|]. split; [exact Hpos|]. lia.
Qed.

(** ** The bar groups and the history *)

Lemma list_sum_cons (x : nat) (l : list nat) :
  list_sum (x :: l) = (x + list_sum l)%nat.
Proof. reflexivity. Qed.

Lemma list_sum_zero {A : Type} (f : A -> nat) (l : list A) :
  (forall x, x ∈ l -> f x = 0%nat) -> list_sum (map f l) = 0%nat.
Proof.
  induction l as [|a l IH]; intros H; [reflexivity|].
  cbn [map]. rewrite !list_sum_cons. rewrite (H a) by (apply elem_of_cons; auto).
  apply IH. intros x Hx. apply H, elem_of_cons. auto.
Qed.

Lemma list_sum_plus {A : Type} (f g : A -> nat) (l : list A) :
  list_sum (map (fun x => (f x + g x)%nat) l)
  = (list_sum (map f l) + list_sum (map g l))%nat.
Proof.
  induction l as [|a l IH]; [reflexivity|].
  cbn [map]. rewrite !list_sum_cons. rewrite IH. lia.
Qed.

Lemma list_sum_filter {A : Type} (f : A -> nat) (p : A -> bool) (l : list A) :
  (forall x, p x = false -> f x = 0%nat) ->
  list_sum (map f (List.filter p l)) = list_sum (map f l).
Proof.
  intros H. induction l as [|a l IH]; [reflexivity|].
  cbn [List.filter]. destruct (p a) eqn:Ha; cbn [map]. rewrite !list_sum_cons.
  - rewrite IH. reflexivity.
  - rewrite IH, (H a Ha). reflexivity.
Qed.

Lemma match_once (v : value) (tys : list jsstring) :
  NoDup tys ->
  list_sum (map (fun ty => if strict_eq_str v ty then 1 else 0)%nat tys)
  = (if existsb (strict_eq_str v) tys then 1 else 0)%nat.
Proof.
  induction tys as [|a tys IH]; intros Hnd; [reflexivity|].
  apply NoDup_cons in Hnd as [Hnotin Hnd]. cbn [map existsb]. rewrite !list_sum_cons.
  destruct (strict_eq_str v a) eqn:Ha; cbn [orb].
  - rewrite list_sum_zero; [reflexivity|].
    intros ty Hty. destruct v as [| | | |s]; try discriminate.
    cbn [strict_eq_str] in *. unfold str_eqb in *.
    apply bool_decide_eq_true in Ha. subst s.
    case_bool_decide; [subst; contradiction|reflexivity].
  - rewrite (IH Hnd). reflexivity.
Qed.

Lemma sum_by_type (q : gmap (list N) value -> bool) (tys : list jsstring)
    (history : list (gmap (list N) value)) :
  NoDup tys ->
  list_sum
    (map (fun ty =>
            length (List.filter
                      (fun h => strict_eq_str (get h (js "type")) ty && q h)
                      history))
       tys)
  = length (List.filter
              (fun h => existsb (strict_eq_str (get h (js "type"))) tys && q h)
              history).
Proof.
  intros Hnd. induction history as [|h history IH].
  - cbn [List.filter length]. apply list_sum_zero. reflexivity.
  - cbn [List.filter]. destruct (q h) eqn:Hq.
    + rewrite (map_ext _
        (fun ty =>
           ((if strict_eq_str (get h (js "type")) ty then 1 else 0) +
            length (List.filter
                      (fun h0 => strict_eq_str (get h0 (js "type")) ty && q h0)
                      history))%nat)).
      * rewrite list_sum_plus, IH, (match_once _ _ Hnd).
        rewrite andb_true_r.
        destruct (existsb (strict_eq_str (get h (js "type"))) tys);
          reflexivity.
      * intros ty. rewrite andb_true_r.
        destruct (strict_eq_str (get h (js "type")) ty); reflexivity.
    + rewrite andb_false_r.
      rewrite (map_ext _
        (fun ty =>
           length (List.filter
                     (fun h0 => strict_eq_str (get h0 (js "type")) ty && q h0)
                     history))).
      * exact IH.
      * intros ty. rewrite andb_false_r. reflexivity.
Qed.

Lemma DASH_TYPES_NoDup : NoDup DASH_TYPES.
Proof. apply (bool_decide_unpack _). vm_compute. exact I. Qed.

Lemma map_filter_sublist {A B : Type} (f : A -> B) (g : B -> A)
    (p : B -> bool) (l : list A) :
  (forall x, g (f x) = x) ->
  map g (List.filter p (map f l)) `sublist_of` l.
Proof.
  intros Hgf. induction l as [|a l IH]; [constructor|].
  cbn [map List.filter]. destruct (p (f a)); cbn [map].
  - rewrite Hgf. apply sublist_skip. exact IH.
  - apply sublist_cons. exact IH.
Qed.

(** The bar groups split the entries of a known transaction type without
    counting any entry twice: the fraud bars add up to the fraud entries of
    a known type and the legitimate bars to the legitimate ones; when every
    entry has a known type they add up to [fraudCount] and [legitCount].
    The groups come in the fixed order of the five types. *)
Theorem bars_partition (history : list (gmap (list N) value)) :
  list_sum (map fraud (byType history))
    = length (List.filter (fun h => knownType h && is_fraud h) history) /\
  list_sum (map legit (byType history))
    = length (List.filter (fun h => knownType h && negb (is_fraud h)) history) /\
  map bar_type (byType history) `sublist_of` DASH_TYPES /\
  (Forall (fun h => knownType h = true) history ->
   list_sum (map fraud (byType history)) = fraudCount history /\
   Z.of_nat (list_sum (map legit (byType history))) = legitCount history).
Proof.
  assert (Hf : list_sum (map fraud (byType history))
               = length (List.filter (fun h => knownType h && is_fraud h) history)).
  { unfold byType. rewrite list_sum_filter.
    - rewrite map_map. cbn [typeBar fraud].
      apply (sum_by_type is_fraud DASH_TYPES history DASH_TYPES_NoDup).
    - intros d Hd. apply Nat.ltb_ge in Hd. lia. }
  assert (Hl : list_sum (map legit (byType history))
               = length (List.filter
                           (fun h => knownType h && negb (is_fraud h)) history)).
  { unfold byType. rewrite list_sum_filter.
    - rewrite map_map. cbn [typeBar legit].
      apply (sum_by_type (fun h => negb (is_fraud h)) DASH_TYPES history
               DASH_TYPES_NoDup).
    - intros d Hd. apply Nat.ltb_ge in Hd. lia. }
  split; [exact Hf|]. split; [exact Hl|]. split.
  - unfold byType. apply map_filter_sublist. reflexivity.
  - intros Hall. rewrite Hf, Hl.
    assert (Hext : forall q : gmap (list N) value -> bool,
              List.filter (fun h => knownType h && q h) history
              = List.filter q history).
    { intros q. apply filter_ext_in. intros h Hin.
      rewrite Forall_forall in Hall.
      rewrite (Hall h) by (apply list_elem_of_In; exact Hin). reflexivity. }
    rewrite !Hext. split; [reflexivity|].
    unfold legitCount, fraudCount, total.
    pose proof (filter_complement_length is_fraud history) as H. lia.
Qed.

(** ** The stored history *)

Lemma slice_prefix {A : Type} (l : list A) (n : nat) :
  slice l 0 (Z.of_nat n) = take n l.
Proof.
  unfold slice, clamp_index. change (0 <? 0)%Z with false. cbv iota.
  destruct (Z.ltb_spec (Z.of_nat n) 0) as [Hneg|_]; [lia|].
  replace (Z.to_nat (Z.min 0 (Z.of_nat (length l)))) with 0%nat by lia.
  cbn [drop].
  destruct (Nat.le_gt_cases n (length l)) as [Hle|Hgt].
  - f_equal. lia.
  - rewrite (take_ge l n) by lia.
    replace (Z.to_nat (Z.min (Z.of_nat n) (Z.of_nat (length l)) -
                       Z.min 0 (Z.of_nat (length l))))
      with (length l) by lia.
    apply firstn_all.
Qed.

Lemma HK_truthy_item (s : jsstring) :
  s <> [] -> (if truthy s then s else js "[]") = s.
Proof. destruct s; [contradiction|reflexivity]. Qed.

(** Adding an entry and loading the history again: when the stored history
    is the array [h], the write is accepted and the serialised array parses
    back to itself, the new history is the stamped entry followed by [h],
    cut to its first 500 entries; the entry carries the given [id] and
    [timestamp] over the fields of the result, and no other key of the
    storage changes. *)
Theorem add_then_load
    (JSON_parse : jsstring -> result json)
    (JSON_stringify : list (gmap (list N) value) -> jsstring)
    (setItem_accepts : jsstring -> jsstring -> bool)
    (r : gmap (list N) value) (now : number) (iso : jsstring)
    (ls : gmap (list N) (list N)) (h : list (gmap (list N) value)) :
  let e := stampEntry r now iso in
  let kept := take 500 (e :: h) in
  loadHistory JSON_parse ls = JArray h ->
  setItem_accepts HK (JSON_stringify kept) = true ->
  JSON_stringify kept <> [] ->
  JSON_parse (JSON_stringify kept) = Ok (JArray kept) ->
  exists ls',
    addToHistory JSON_parse JSON_stringify setItem_accepts r now iso ls
      = Ok ls' /\
    loadHistory JSON_parse ls' = JArray kept /\
    (forall k, k <> HK -> ls' !! k = ls !! k) /\
    length kept = Nat.min 500 (S (length h)) /\
    kept !! 0%nat = Some e /\
    e !! js "id" = Some (VNum now) /\
    e !! js "timestamp" = Some (VStr iso) /\
    (forall k, k <> js "id" -> k <> js "timestamp" -> e !! k = r !! k).
Proof.
  cbv zeta. intros Hload Hacc Hne Hround.
  exists (<[ HK := JSON_stringify (take 500 (stampEntry r now iso :: h)) ]> ls).
  split; [|split; [|split; [|split; [|split; [|split; [|split]]]]]].
  - unfold addToHistory. rewrite Hload. unfold saveHistory. cbv zeta.
    rewrite (slice_prefix _ 500), Hacc. reflexivity.
  - unfold loadHistory. rewrite lookup_insert_eq. cbv zeta.
    rewrite (HK_truthy_item _ Hne), Hround. reflexivity.
  - intros k Hk. apply lookup_insert_ne. congruence.
  - rewrite length_take. reflexivity.
  - reflexivity.
  - unfold stampEntry. rewrite lookup_insert_ne by discriminate.
    apply lookup_insert_eq.
  - unfold stampEntry. apply lookup_insert_eq.
  - intros k Hid Hts. unfold stampEntry.
    rewrite !lookup_insert_ne by congruence. reflexivity.
Qed.

Lemma add_then_load_witness :
  let e := stampEntry {[ js "is_fraud" := VBool true ]} (number_of_Z 7)
             (js "2026-01-01T00:00:00.000Z") in
  let parse := fun s : jsstring =>
                 if str_eqb s (js "[]") then Ok (JArray []) else Ok (JArray [e]) in
  exists ls',
    addToHistory parse (fun _ => js "[e]") (fun _ _ => true)
      {[ js "is_fraud" := VBool true ]} (number_of_Z 7)
      (js "2026-01-01T00:00:00.000Z") ∅ = Ok ls' /\
    loadHistory parse ls' = JArray [e].
Proof.
  cbv zeta.
  destruct (add_then_load
              (fun s : jsstring =>
                 if str_eqb s (js "[]") then Ok (JArray [])
                 else Ok (JArray
                            [stampEntry {[ js "is_fraud" := VBool true ]}
                               (number_of_Z 7) (js "2026-01-01T00:00:00.000Z")]))
              (fun _ => js "[e]") (fun _ _ => true)
              {[ js "is_fraud" := VBool true ]} (number_of_Z 7)
              (js "2026-01-01T00:00:00.000Z") ∅ [])
    as (ls' & Hadd & Hload & _).
  - reflexivity.
  - reflexivity.
  - discriminate.
  - reflexivity.
  - exists ls'. split; [exact Hadd|exact Hload].
Defined.

(** Clearing and loading: once the key is removed, or when nothing was ever
    stored, or when an empty string is stored, the history loads as the
    empty array (given that [JSON.parse] reads ["[]"] as such); a stored
    text that [JSON.parse] rejects loads as the empty array as well; and
    [clearHistory] touches no other key. *)
Theorem clear_then_load
    (JSON_parse : jsstring -> result json) (ls : gmap (list N) (list N)) :
  JSON_parse (js "[]") = Ok (JArray []) ->
  loadHistory JSON_parse (clearHistory ls) = JArray [] /\
  (ls !! HK = None \/ ls !! HK = Some [] -> loadHistory JSON_parse ls = JArray []) /\
  (forall s msg, ls !! HK = Some s -> JSON_parse s = Throw msg ->
                 loadHistory JSON_parse ls = JArray []) /\
  (forall k, k <> HK -> clearHistory ls !! k = ls !! k).
Proof.
  intros Hempty. split; [|split; [|split]].
  - unfold loadHistory, clearHistory. rewrite lookup_delete_eq. cbv zeta.
    rewrite Hempty. reflexivity.
  - intros [Hk|Hk]; unfold loadHistory; rewrite Hk; cbn [truthy]; cbv zeta;
      rewrite Hempty; reflexivity.
  - intros s msg Hk Hthrow. unfold loadHistory. rewrite Hk. cbv zeta.
    destruct s as [|c s'].
    + cbn [truthy]. rewrite Hempty. reflexivity.
    + cbn [truthy]. rewrite Hthrow. reflexivity.
  - intros k Hk. unfold clearHistory. apply lookup_delete_ne. congruence.
Qed.

Lemma clear_then_load_witness :
  loadHistory
    (fun s => if str_eqb s (js "[]") then Ok (JArray []) else Throw (js "bad"))
    (clearHistory {[ HK := js "{oops" ]}) = JArray [].
Proof.
  apply (clear_then_load
           (fun s => if str_eqb s (js "[]") then Ok (JArray [])
                     else Throw (js "bad"))
           {[ HK := js "{oops" ]}).
  reflexivity.
Defined.

(** ** The dashboard on a small history *)

Lemma bar_chart_scale_witness :
  let history : list (gmap (list N) value) :=
    [ {[ js "type" := VStr (js "PAYMENT"); js "is_fraud" := VBool true ]};
      {[ js "type" := VStr (js "PAYMENT"); js "is_fraud" := VBool false ]};
      {[ js "type" := VStr (js "debit"); js "is_fraud" := VBool true ]} ] in
  maxBar history = 2%nat /\
  forall d, d ∈ byType history ->
    bar_type d ∈ DASH_TYPES /\
    (1 <= fraud d + legit d)%nat /\
    (fraud d <= maxBar history)%nat /\
    (legit d <= maxBar history)%nat /\
    (fraud d + legit d <= maxBar history)%nat.
Proof.
  cbv zeta. split; [vm_compute; reflexivity|].
  exact (proj2 (bar_chart_scale _)).
Defined.

Lemma bars_partition_witness :
  let history : list (gmap (list N) value) :=
    [ {[ js "type" := VStr (js "PAYMENT"); js "is_fraud" := VBool true ]};
      {[ js "type" := VStr (js "CASH_IN"); js "is_fraud" := VNum (number_of_Z 0) ]} ] in
  list_sum (map fraud (byType history)) = fraudCount history /\
  Z.of_nat (list_sum (map legit (byType history))) = legitCount history.
Proof.
  cbv zeta.
  apply (proj2 (proj2 (proj2 (bars_partition _)))).
  repeat constructor.
Defined.
